(** * pyrigol: the SCPI command/response layer of [rigol.py]

    A shallow embedding of [BaseVisaDevice], [RigolDP832] and [Rigol1054Z].
    Python strings are [string]s of ASCII characters (pyvisa decodes
    instrument replies as ASCII), Python integers are [Z], and a Python
    float is kept as the exact decimal number its literal denotes.  Calls on
    the VISA session ([device.write], [device.ask],
    [device.query_ascii_values]), [time.sleep] and [print] are recorded as
    the events of a trace, and an exception is the [Raise] outcome of a
    call.  Every method is a function of the opened session; the
    constructors, which look the instrument up on the bus, and the script
    follow the two classes.  Durations are the decimal literals passed to
    [time.sleep], in seconds. *)

From Stdlib Require Import ZArith QArith List String Ascii Bool Lia.
From Stdlib Require Import Numbers.DecimalString.
Import ListNotations.

Open Scope string_scope.
Open Scope Z_scope.

(** ** Python strings *)

Module PyStr.

Definition code (c : ascii) : N := N_of_ascii c.

(** The double-quote character. *)
Definition dquote : ascii := ascii_of_N 34.

(** [str.isspace] on one ASCII character: TAB, LF, VT, FF, CR, the four
    separators FS..US, and the space. *)
Definition is_space (c : ascii) : bool :=
  let n := code c in
  ((9 <=? n) && (n <=? 13) || (28 <=? n) && (n <=? 31) || (n =? 32))%N.

Definition is_digit (c : ascii) : bool :=
  let n := code c in ((48 <=? n) && (n <=? 57))%N.

Definition digit_value (c : ascii) : Z := Z.of_N (code c) - 48.

Definition is_upper (c : ascii) : bool :=
  let n := code c in ((65 <=? n) && (n <=? 90))%N.

Definition is_lower (c : ascii) : bool :=
  let n := code c in ((97 <=? n) && (n <=? 122))%N.

Definition to_upper (c : ascii) : ascii :=
  if is_lower c then ascii_of_N (code c - 32) else c.

Definition to_lower (c : ascii) : ascii :=
  if is_upper c then ascii_of_N (code c + 32) else c.

Fixpoint map (f : ascii -> ascii) (s : string) : string :=
  match s with
  | EmptyString => EmptyString
  | String c s' => String (f c) (map f s')
  end.

(** [s.upper()] and [s.lower()]. *)
Definition upper (s : string) : string := map to_upper s.
Definition lower (s : string) : string := map to_lower s.

(** [s.lstrip()]. *)
Fixpoint lstrip (s : string) : string :=
  match s with
  | EmptyString => EmptyString
  | String c s' => if is_space c then lstrip s' else s
  end.

(** [s.rstrip()]: a character is kept when it is not a space or when
    something is kept after it. *)
Fixpoint rstrip (s : string) : string :=
  match s with
  | EmptyString => EmptyString
  | String c s' =>
      match rstrip s' with
      | EmptyString => if is_space c then EmptyString else String c EmptyString
      | r => String c r
      end
  end.

(** [s.strip()]. *)
Definition strip (s : string) : string := rstrip (lstrip s).

(** [len(s)]. *)
Definition len (s : string) : Z := Z.of_nat (String.length s).

(** [s[n:]] for a constant [n >= 0]. *)
Fixpoint slice_from (n : nat) (s : string) : string :=
  match n, s with
  | O, _ => s
  | S n', String _ s' => slice_from n' s'
  | S _, EmptyString => EmptyString
  end.

(** [s.startswith(p)], used by [replace]. *)
Fixpoint starts_with (p s : string) : bool :=
  match p, s with
  | EmptyString, _ => true
  | String a p', String b s' => Ascii.eqb a b && starts_with p' s'
  | String _ _, EmptyString => false
  end.

(** [s.replace(old, new)] for a non-empty [old]: occurrences are replaced
    from the left and do not overlap.  [fuel] bounds the scan and is the
    length of [s] in every use. *)
Fixpoint replace_from (fuel : nat) (old new s : string) : string :=
  match fuel with
  | O => s
  | S fuel' =>
      match s with
      | EmptyString => EmptyString
      | String c s' =>
          if starts_with old s
          then new ++ replace_from fuel' old new (slice_from (String.length old) s)
          else String c (replace_from fuel' old new s')
      end
  end.

Definition replace (s old new : string) : string :=
  replace_from (String.length s) old new s.

(** [str(z)] for an integer. *)
Definition of_Z (z : Z) : string := NilZero.string_of_int (Z.to_int z).

End PyStr.

(** ** Python floats

    A float is modelled by the exact decimal number that its literal
    denotes, [(-1) ^ negative * mantissa * 10 ^ exponent] with
    [0 <= mantissa]; the rounding of that number to binary64 is not part of
    the model. *)

Inductive pyfloat : Type :=
| Fin (negative : bool) (mantissa : Z) (exponent : Z)
| Inf (negative : bool)
| NaN.

Module PyFloat.

Import PyStr.

(** [digit (["_"] digit)*] after its first digit: the digits are
    accumulated in [acc], [n] counts them, and the unread text is
    returned. *)
Fixpoint digits_tail (acc : Z) (n : Z) (s : string) : Z * Z * string :=
  match s with
  | String c s' =>
      if is_digit c then digits_tail (10 * acc + digit_value c) (n + 1) s'
      else if Ascii.eqb c "_" then
        match s' with
        | String d s'' =>
            if is_digit d
            then digits_tail (10 * acc + digit_value d) (n + 1) s''
            else (acc, n, s)
        | EmptyString => (acc, n, s)
        end
      else (acc, n, s)
  | EmptyString => (acc, n, s)
  end.

(** [digitpart] of the float grammar, continuing the number [acc]. *)
Definition digitpart (acc : Z) (s : string) : option (Z * Z * string) :=
  match s with
  | String c s' =>
      if is_digit c then Some (digits_tail (10 * acc + digit_value c) 1 s')
      else None
  | EmptyString => None
  end.

(** An optional sign: [true] for a minus. *)
Definition sign (s : string) : bool * string :=
  match s with
  | String c s' =>
      if Ascii.eqb c "-" then (true, s')
      else if Ascii.eqb c "+" then (false, s')
      else (false, s)
  | EmptyString => (false, s)
  end.

(** [number ::= [digitpart] "." digitpart | digitpart ["."]]: the digits
    read as one integer and the count of digits after the point. *)
Definition number (s : string) : option (Z * Z * string) :=
  match digitpart 0 s with
  | Some (m, _, String c r) =>
      if Ascii.eqb c "." then
        match digitpart m r with
        | Some (m', k, r') => Some (m', k, r')
        | None => Some (m, 0, r)
        end
      else Some (m, 0, String c r)
  | Some (m, _, EmptyString) => Some (m, 0, EmptyString)
  | None =>
      match s with
      | String c r =>
          if Ascii.eqb c "." then
            match digitpart 0 r with
            | Some (m', k, r') => Some (m', k, r')
            | None => None
            end
          else None
      | EmptyString => None
      end
  end.

(** [exponent ::= ("e" | "E") [sign] digitpart], or nothing. *)
Definition exponent_part (s : string) : option (Z * string) :=
  match s with
  | String c r =>
      if Ascii.eqb (to_lower c) "e" then
        let (neg, r1) := sign r in
        match digitpart 0 r1 with
        | Some (e, _, r2) => Some (if neg then - e else e, r2)
        | None => None
        end
      else Some (0, s)
  | EmptyString => Some (0, s)
  end.


(** The whitespace [float] skips around an ASCII literal: C's [isspace],
    without the four separators that [str.strip] also removes. *)
Definition is_c_space (c : ascii) : bool :=
  let n := code c in ((9 <=? n) && (n <=? 13) || (n =? 32))%N.

Fixpoint skip_spaces (s : string) : string :=
  match s with
  | EmptyString => EmptyString
  | String c s' => if is_c_space c then skip_spaces s' else s
  end.

(** The text is used up when only whitespace is left. *)
Definition at_end (s : string) : bool :=
  match skip_spaces s with
  | EmptyString => true
  | String _ _ => false
  end.

(** [floatnumber | infinity | nan], which must use up the text but for
    trailing whitespace. *)
Definition absfloatvalue (neg : bool) (s : string) : option pyfloat :=
  let l := lower s in
  if starts_with "infinity" l && at_end (slice_from 8 s) then Some (Inf neg)
  else if starts_with "inf" l && at_end (slice_from 3 s) then Some (Inf neg)
  else if starts_with "nan" l && at_end (slice_from 3 s) then Some NaN
  else
    match number s with
    | Some (m, k, r) =>
        match exponent_part r with
        | Some (e, r') => if at_end r' then Some (Fin neg m (e - k)) else None
        | None => None
        end
    | None => None
    end.

(** [float(s)] for a string: [None] stands for the [ValueError]. *)
Definition of_string (s : string) : option pyfloat :=
  let (neg, r) := sign (skip_spaces s) in absfloatvalue neg r.

(** [float(z)] for an integer. *)
Definition of_Z (z : Z) : pyfloat := Fin (z <? 0) (Z.abs z) 0.

End PyFloat.

(** [repr] of a float, which is also its [str].  The digits are those of
    the decimal literal without its trailing zeros, laid out as CPython
    does: fixed notation when the decimal point falls within
    [-4 < decpt <= 16], exponent notation otherwise.  This is the text
    Python prints whenever the literal has at most 15 significant digits
    and lies in the normal range of binary64. *)
Module PyRepr.

(** Removes the trailing zeros of a positive mantissa. *)
Fixpoint strip_zeros (fuel : nat) (m e : Z) : Z * Z :=
  match fuel with
  | O => (m, e)
  | S fuel' =>
      if (0 <? m) && (m mod 10 =? 0) then strip_zeros fuel' (m / 10) (e + 1)
      else (m, e)
  end.

Fixpoint zeros (n : nat) : string :=
  match n with
  | O => EmptyString
  | S n' => String "0" (zeros n')
  end.

Fixpoint take (n : nat) (s : string) : string :=
  match n, s with
  | S n', String c s' => String c (take n' s')
  | _, _ => EmptyString
  end.

(** The exponent of the exponent notation: a sign and at least two
    digits. *)
Definition exp_text (x : Z) : string :=
  let d := PyStr.of_Z (Z.abs x) in
  (if x <? 0 then "e-" else "e+") ++
  (if Z.abs x <? 10 then String "0" d else d).

Definition finite (m e : Z) : string :=
  let ds0 := PyStr.of_Z m in
  let (m', e') := strip_zeros (String.length ds0) m e in
  let ds := PyStr.of_Z m' in
  if m' =? 0 then "0.0" else
  let n := PyStr.len ds in
  let decpt := n + e' in
  if (decpt <=? -4) || (16 <? decpt) then
    match ds with
    | String d EmptyString => String d (exp_text (decpt - 1))
    | String d ds' => String d (String "." ds') ++ exp_text (decpt - 1)
    | EmptyString => EmptyString
    end
  else if decpt <=? 0 then "0." ++ zeros (Z.to_nat (- decpt)) ++ ds
  else if n <=? decpt then ds ++ zeros (Z.to_nat (decpt - n)) ++ ".0"
  else take (Z.to_nat decpt) ds ++ String "." (PyStr.slice_from (Z.to_nat decpt) ds).

Definition repr (f : pyfloat) : string :=
  match f with
  | Fin neg m e => (if neg then "-" else EmptyString) ++ finite m e
  | Inf neg => if neg then "-inf" else "inf"
  | NaN => "nan"
  end.

End PyRepr.

(** ** Python values, exceptions and [str.format] *)

Inductive pyval : Type :=
| PyInt (z : Z)
| PyFloat (f : pyfloat)
| PyStr (s : string)
| PyNone.

(** The exceptions the module can raise.  [Unmodelled] marks a use of a
    Python feature that this embedding leaves out: a format field with an
    index, a keyword, a conversion or a format specification, and an
    attribute that is a method. *)
Inductive exn : Type :=
| RuntimeError (msg : string)
| IndexError
| KeyError (key : string)
| AttributeError (type_name attr : string)
| ValueError
| TypeError
| Unmodelled.

Inductive result (A : Type) : Type :=
| Ok (a : A)
| Raise (e : exn).

Arguments Ok {A} a.
Arguments Raise {A} e.

Module Py.

(** [s[i]], with Python's negative indices. *)
Definition item (s : string) (i : Z) : result string :=
  let n := PyStr.len s in
  let j := if i <? 0 then i + n else i in
  if (0 <=? j) && (j <? n) then Ok (String.substring (Z.to_nat j) 1 s)
  else Raise IndexError.

(** Truth value of an object, as [if] tests it. *)
Definition truthy (v : pyval) : bool :=
  match v with
  | PyInt z => negb (z =? 0)
  | PyFloat (Fin _ m _) => negb (m =? 0)
  | PyFloat _ => true
  | PyStr s => negb (String.eqb s EmptyString)
  | PyNone => false
  end.

(** [str(v)]. *)
Definition str (v : pyval) : string :=
  match v with
  | PyInt z => PyStr.of_Z z
  | PyFloat f => PyRepr.repr f
  | PyStr s => s
  | PyNone => "None"
  end.

Definition type_name (v : pyval) : string :=
  match v with
  | PyInt _ => "int"
  | PyFloat _ => "float"
  | PyStr _ => "str"
  | PyNone => "NoneType"
  end.

(** [float(v)]. *)
Definition float (v : pyval) : result pyfloat :=
  match v with
  | PyInt z => Ok (PyFloat.of_Z z)
  | PyFloat f => Ok f
  | PyStr s =>
      match PyFloat.of_string s with
      | Some f => Ok f
      | None => Raise ValueError
      end
  | PyNone => Raise TypeError
  end.

(** [getattr(v, name)].  No attribute of these types has a name that
    begins with a digit; of the attributes that exist only the numeric
    data attributes are modelled. *)
Definition getattr (v : pyval) (name : string) : result pyval :=
  match name with
  | EmptyString => Raise ValueError
  | String c _ =>
      if PyStr.is_digit c then Raise (AttributeError (type_name v) name)
      else
        match v with
        | PyInt z =>
            if String.eqb name "real" || String.eqb name "numerator" then Ok v
            else if String.eqb name "imag" then Ok (PyInt 0)
            else if String.eqb name "denominator" then Ok (PyInt 1)
            else Raise Unmodelled
        | PyFloat f =>
            if String.eqb name "real" then Ok v
            else if String.eqb name "imag" then Ok (PyFloat (Fin false 0 0))
            else Raise Unmodelled
        | _ => Raise Unmodelled
        end
  end.

Fixpoint mem (c : ascii) (s : string) : bool :=
  match s with
  | EmptyString => false
  | String d s' => Ascii.eqb c d || mem c s'
  end.

(** One replacement field, the text between the braces.  An empty field
    name takes the next positional argument; [.name] after it reads an
    attribute of that argument.  Explicit indices, keywords, [[...]],
    conversions and format specifications are not modelled. *)
Definition field (f : string) (next : nat) (args : list pyval) : result string :=
  match f with
  | EmptyString =>
      match nth_error args next with
      | Some v => Ok (str v)
      | None => Raise IndexError
      end
  | String c name =>
      if Ascii.eqb c "." then
        if mem "." name || mem "[" name || mem "!" name || mem ":" name
        then Raise Unmodelled
        else
          match nth_error args next with
          | Some v =>
              match getattr v name with
              | Ok a => Ok (str a)
              | Raise e => Raise e
              end
          | None => Raise IndexError
          end
      else Raise Unmodelled
  end.

(** [template.format] on positional arguments: the text is copied, [{{] and [}}] stand for
    one brace, and each [{...}] is replaced by its field.  [open] holds
    the text of the field being read, [next] the automatic index. *)
Fixpoint format_from (s : string) (open : option string) (next : nat)
    (args : list pyval) : result string :=
  match s, open with
  | EmptyString, None => Ok EmptyString
  | EmptyString, Some _ => Raise ValueError
  | String c s', Some f =>
      if Ascii.eqb c "}" then
        match field f next args with
        | Ok txt =>
            match format_from s' None (S next) args with
            | Ok rest => Ok (txt ++ rest)
            | Raise e => Raise e
            end
        | Raise e => Raise e
        end
      else if Ascii.eqb c "{" then Raise Unmodelled
      else format_from s' (Some (f ++ String c EmptyString)) next args
  | String c s', None =>
      let copy (ch : ascii) (r : result string) :=
        match r with
        | Ok rest => Ok (String ch rest)
        | Raise e => Raise e
        end in
      if Ascii.eqb c "{" then
        match s' with
        | String d s'' =>
            if Ascii.eqb d "{" then copy c (format_from s'' None next args)
            else format_from s' (Some EmptyString) next args
        | EmptyString => Raise ValueError
        end
      else if Ascii.eqb c "}" then
        match s' with
        | String d s'' =>
            if Ascii.eqb d "}" then copy c (format_from s'' None next args)
            else Raise ValueError
        | EmptyString => Raise ValueError
        end
      else copy c (format_from s' None next args)
  end.

Definition format (template : string) (args : list pyval) : result string :=
  format_from template None 0 args.

End Py.

(** ** The VISA session and the trace of a call *)

(** What a call does to the outside world, in the order it does it. *)
Inductive event : Type :=
| DevWrite (message : string)
| DevAsk (message : string)
| DevQueryAscii (message : string)
| DevClose
| Sleep (seconds : Q)
| Print (text : string).

Definition trace := list event.

(** The instrument behind [self.device]: its textual reply to [ask] and the
    value strings of its reply to [query_ascii_values], each as a function
    of everything that happened before and of the message sent. *)
Record visa_device : Type := {
  ask_reply : trace -> string -> string;
  ascii_reply : trace -> string -> list string
}.

(** A computation reads the trace so far and extends it; it ends with a
    value or with an exception. *)
Definition M (A : Type) : Type := trace -> result A * trace.

Definition ret {A} (a : A) : M A := fun h => (Ok a, h).

Definition raise {A} (e : exn) : M A := fun h => (Raise e, h).

Definition bind {A B} (m : M A) (k : A -> M B) : M B :=
  fun h =>
    match m h with
    | (Ok a, h') => k a h'
    | (Raise e, h') => (Raise e, h')
    end.

Definition lift {A} (r : result A) : M A := fun h => (r, h).

Definition emit (e : event) : M unit := fun h => (Ok tt, (h ++ [e])%list).

Declare Scope py_scope.
Delimit Scope py_scope with py.
Notation "x <- m ;; k" := (bind m (fun x => k))
  (at level 61, m at next level, right associativity) : py_scope.
Notation "m ;; k" := (bind m (fun _ => k))
  (at level 61, right associativity) : py_scope.
Open Scope py_scope.

(** [for x in xs] collecting the results, left to right. *)
Fixpoint mapM {A B} (f : A -> M B) (xs : list A) : M (list B) :=
  match xs with
  | [] => ret []
  | x :: xs' => y <- f x ;; ys <- mapM f xs' ;; ret (y :: ys)
  end.

Definition print (text : string) : M unit := emit (Print text).

Definition sleep (seconds : Q) : M unit := emit (Sleep seconds).

Module Device.

(** [device.write(message)]. *)
Definition write (dev : visa_device) (message : string) : M unit :=
  emit (DevWrite message).

(** [device.ask(message)]: the query is sent and the reply read back. *)
Definition ask (dev : visa_device) (message : string) : M string :=
  fun h => (Ok (ask_reply dev h message), (h ++ [DevAsk message])%list).

(** [device.query_ascii_values(message, converter=...)]: pyvisa sends the
    query, splits the reply into its value strings and returns the
    container of [converter(value)] for each of them, in order. *)
Definition query_ascii_values {A} (dev : visa_device) (message : string)
    (converter : string -> M A) : M (list A) :=
  fun h => mapM converter (ascii_reply dev h message) (h ++ [DevQueryAscii message])%list.

(** The default converter ["f"], which is [float]. *)
Definition converter_f (s : string) : M pyval :=
  match PyFloat.of_string s with
  | Some f => ret (PyFloat f)
  | None => raise ValueError
  end.

(** [device.close()]. *)
Definition close (dev : visa_device) : M unit := emit DevClose.

End Device.

(** [xs[0]] on a list. *)
Definition first {A} (xs : list A) : M A :=
  match xs with
  | x :: _ => ret x
  | [] => raise IndexError
  end.

(** ** [class BaseVisaDevice] *)

Module BaseVisaDevice.

Definition write (dev : visa_device) (message : string) : M pyval :=
  Device.write dev message ;;
  sleep (1 # 10) ;;
  error <- Device.ask dev "SYST:ERR?" ;;
  error0 <- lift (Py.item error 0) ;;
  if Py.truthy (PyStr error0) then
    text <- lift (Py.format "`{}` recieved. No error occured" [PyStr message]) ;;
    print text ;;
    ret (PyInt 0)
  else
    text <- lift (Py.format "`{}` recieved. An Error occured: {}"
                    [PyStr message; PyStr error]) ;;
    print text ;;
    error0' <- lift (Py.item error 0) ;;
    ret (PyStr error0').

Definition reset (dev : visa_device) : M pyval :=
  write dev "*RST" ;;
  sleep (2 # 10) ;;
  ret PyNone.

Definition close_instrument (dev : visa_device) : M pyval :=
  Device.close dev ;;
  ret PyNone.

End BaseVisaDevice.

(** ** [class RigolDP832] *)

Module RigolDP832.

Import BaseVisaDevice.

Definition turn_off (dev : visa_device) (channel : Z) : M pyval :=
  (if (channel <=? 0) || (channel >? 3)
   then raise (RuntimeError "Invalid channel!") else ret tt) ;;
  cmd <- lift (Py.format ":OUTP CH{},OFF" [PyInt channel]) ;;
  write dev cmd ;;
  ret PyNone.

Definition turn_on (dev : visa_device) (channel : Z) : M pyval :=
  (if (channel <=? 0) || (channel >? 3)
   then raise (RuntimeError "Invalid channel!") else ret tt) ;;
  cmd <- lift (Py.format ":OUTP CH{},ON" [PyInt channel]) ;;
  write dev cmd ;;
  ret PyNone.

Definition dc_command : string := ":DC".

(** The measurements read the first value of the reply; the container of
    the values, a numpy array, plays no part. *)
Definition measure_voltage (dev : visa_device) (channel : Z) (dc : bool) : M pyval :=
  cmd <- lift (Py.format ":MEAS:VOLT{}? CH{}"
                 [PyStr (if dc then dc_command else EmptyString); PyInt channel]) ;;
  values <- Device.query_ascii_values dev cmd Device.converter_f ;;
  first values.

Definition measure_current (dev : visa_device) (channel : Z) (dc : bool) : M pyval :=
  cmd <- lift (Py.format ":MEAS:CURR{}? CH{}"
                 [PyStr (if dc then dc_command else EmptyString); PyInt channel]) ;;
  values <- Device.query_ascii_values dev cmd Device.converter_f ;;
  first values.

Definition measure_power (dev : visa_device) (channel : Z) (dc : bool) : M pyval :=
  cmd <- lift (Py.format ":MEAS:ALL{}? CH{}"
                 [PyStr (if dc then dc_command else EmptyString); PyInt channel]) ;;
  values <- Device.query_ascii_values dev cmd Device.converter_f ;;
  first values.

End RigolDP832.

(** [d[key]] on a dict with string keys. *)
Fixpoint getitem (d : list (string * string)) (key : string) : result string :=
  match d with
  | [] => Raise (KeyError key)
  | (k, v) :: d' => if String.eqb k key then Ok v else getitem d' key
  end.

(** ** [class Rigol1054Z] *)

Module Rigol1054Z.

Import BaseVisaDevice.

Definition DIVS_VERTICAL : Z := 8.
Definition DIVS_HORIZONTAL : Z := 12.

Definition turn_on (dev : visa_device) (channel : Z) : M pyval :=
  (if (channel <=? 0) || (channel >? 4)
   then raise (RuntimeError "Invalid channel!") else ret tt) ;;
  cmd <- lift (Py.format ":CHAN{}:DISP ON" [PyInt channel]) ;;
  write dev cmd ;;
  ret PyNone.

Definition turn_off (dev : visa_device) (channel : Z) : M pyval :=
  (if (channel <=? 0) || (channel >? 4)
   then raise (RuntimeError "Invalid channel!") else ret tt) ;;
  cmd <- lift (Py.format ":CHAN{}:DISP OFF" [PyInt channel]) ;;
  write dev cmd ;;
  ret PyNone.

Definition channel_scale_set (dev : visa_device) (channel : Z) (scale_factor : pyval)
    : M pyval :=
  cmd <- lift (Py.format ":CHAN{}:SCAL {}" [PyInt channel; scale_factor]) ;;
  write dev cmd ;;
  ret PyNone.

Definition channel_scale_get (dev : visa_device) (channel : Z) : M pyval :=
  cmd <- lift (Py.format ":CHAN{}:SCAL?" [PyInt channel]) ;;
  values <- Device.query_ascii_values dev cmd Device.converter_f ;;
  first values.

Definition channel_offset_set (dev : visa_device) (channel : Z) (offset : pyval)
    : M pyval :=
  cmd <- lift (Py.format ":CHAN{}:OFFS {}" [PyInt channel; offset]) ;;
  write dev cmd ;;
  ret PyNone.

Definition channel_offset_get (dev : visa_device) (channel : Z) : M pyval :=
  values <- Device.query_ascii_values dev ":WAV:YOR?" Device.converter_f ;;
  first values.

Definition timescale (dev : visa_device) (timescale : pyval) : M pyval :=
  cmd <- lift (Py.format ":TIM:SCAL {}" [timescale]) ;;
  write dev cmd ;;
  ret PyNone.

Definition trigger_offset (dev : visa_device) (time_offset : pyval) : M pyval :=
  cmd <- lift (Py.format ":TIM:OFFS {}" [time_offset]) ;;
  write dev cmd ;;
  ret PyNone.

Definition capture_start (dev : visa_device) : M pyval :=
  write dev ":START" ;;
  ret PyNone.

Definition capture_stop (dev : visa_device) : M pyval :=
  write dev ":STOP" ;;
  ret PyNone.

(** The defaults of [trigger_edge_config]. *)
Definition default_trig_type : string := "single".
Definition default_coupling : string := "DC".
Definition default_slope : string := "falling".

Definition trigger_edge_config (dev : visa_device) (channel : Z) (level : pyval)
    (trig_type coupling slope : string) : M pyval :=
  let type_lookup := [("single", "SING")] in
  let slope_lookup := [("falling", "NEG"); ("rising", "POS")] in
  let coupling := PyStr.upper (PyStr.strip coupling) in
  (if negb (String.eqb coupling "DC") && negb (String.eqb coupling "AC")
   then raise (RuntimeError "Invalid coupling type!") else ret tt) ;;
  slope <- lift (getitem slope_lookup (PyStr.lower (PyStr.strip slope))) ;;
  trig_type <- lift (getitem type_lookup (PyStr.lower (PyStr.strip trig_type))) ;;
  cmd <- lift (Py.format ":TRIG:EDGE:SOUR CHAN{}" [PyInt channel]) ;;
  write dev cmd ;;
  cmd <- lift (Py.format ":TRIG:EDGE:SWE {}" [PyStr trig_type]) ;;
  write dev cmd ;;
  cmd <- lift (Py.format ":TRIG:EDGE:COUP {}" [PyStr coupling]) ;;
  write dev cmd ;;
  cmd <- lift (Py.format ":TRIG:EDGE:SLOP {}" [PyStr slope]) ;;
  write dev cmd ;;
  lev <- lift (Py.float level) ;;
  cmd <- lift (Py.format ":TRIG:EDGE:LEV {.5f}" [PyFloat lev]) ;;
  write dev cmd ;;
  ret PyNone.

(** The converter local to [get_samples].  The result of
    [string.replace] is computed and discarded, as in the source; the bare
    [except] swallows whatever [float] raises. *)
Definition conv_string (string : string) : M pyval :=
  parsed <-
    (if negb (PyStr.len (PyStr.strip string) =? 0) then
       c <- lift (Py.item string 0) ;;
       let string := if String.eqb c "#" then PyStr.slice_from 11 string else string in
       let _ := PyStr.replace string "ee" "e" in
       match Py.float (PyStr string) with
       | Ok data => ret (Some (PyFloat data))
       | Raise _ => ret None
       end
     else ret None) ;;
  match parsed with
  | Some data => ret data
  | None => print "WARNING: Dropped packet!" ;; ret PyNone
  end.

Definition get_samples (dev : visa_device) (channel : Z) : M (list pyval) :=
  write dev ":WAV:FORM ASCII" ;;
  Device.write dev ":WAV:POIN:MODE RAW" ;;
  data <- Device.query_ascii_values dev ":WAV:DATA? CHAN1" conv_string ;;
  ret data.

Definition samplerate_get (dev : visa_device) : M pyval :=
  values <- Device.query_ascii_values dev ":ACQ:SAMP?" Device.converter_f ;;
  first values.

End Rigol1054Z.

(** ** Sample instruments *)

(** An instrument that answers every [ask] with [reply] and every
    [query_ascii_values] with the value strings [tokens]. *)
Definition constant_device (reply : string) (tokens : list string) : visa_device :=
  {| ask_reply := fun _ _ => reply; ascii_reply := fun _ _ => tokens |}.

(** The SCPI replies [0,"No error"] and [1, "Undefined header"]. *)
Definition no_error_reply : string :=
  "0," ++ String PyStr.dquote ("No error" ++ String PyStr.dquote EmptyString).

Definition undefined_header_reply : string :=
  "1, " ++ String PyStr.dquote ("Undefined header" ++ String PyStr.dquote EmptyString).

Definition example_tokens : list string :=
  ["#800000005"; "1.23"; EmptyString; "4.5ee6"; "bad"].

(** ** Vocabulary of the properties *)

(** [sub in s]. *)
Fixpoint contains (sub s : string) : bool :=
  PyStr.starts_with sub s ||
  match s with
  | EmptyString => false
  | String _ s' => contains sub s'
  end.

(** The events of one [write]: the command, the pause, the error query
    and, when the reply is not empty, the log line. *)
Definition write_events (message reply : string) : list event :=
  ([DevWrite message; Sleep (1 # 10); DevAsk "SYST:ERR?"] ++
   match reply with
   | EmptyString => []
   | String _ _ => [Print ("`" ++ message ++ "` recieved. No error occured")%string]
   end)%list.

(** The reply the instrument gives to the error query of a [write] that
    starts after [h]. *)
Definition error_reply (dev : visa_device) (message : string) (h : trace) : string :=
  ask_reply dev (h ++ [DevWrite message; Sleep (1 # 10)])%list "SYST:ERR?".

(** The outcome of a call that hands [cmd] to [write] and returns [None]. *)
Definition written (dev : visa_device) (cmd : string) (h : trace) : result pyval * trace :=
  (match error_reply dev cmd h with
   | EmptyString => Raise IndexError
   | String _ _ => Ok PyNone
   end,
   (h ++ write_events cmd (error_reply dev cmd h))%list).

(** The error query occurs in a trace. *)
Fixpoint has_error_query (tr : trace) : bool :=
  match tr with
  | [] => false
  | DevAsk m :: tr' => String.eqb m "SYST:ERR?" || has_error_query tr'
  | _ :: tr' => has_error_query tr'
  end.

(** The commands written to the instrument with no error query after
    them. *)
Fixpoint unchecked_writes (tr : trace) : list string :=
  match tr with
  | [] => []
  | DevWrite m :: tr' =>
      if has_error_query tr' then unchecked_writes tr' else m :: unchecked_writes tr'
  | _ :: tr' => unchecked_writes tr'
  end.

(** The time a trace spends in [time.sleep], in seconds. *)
Fixpoint total_sleep (tr : trace) : Q :=
  match tr with
  | [] => 0
  | Sleep s :: tr' => s + total_sleep tr'
  | _ :: tr' => total_sleep tr'
  end.

(** The text of a waveform token that reaches [float]: the token itself,
    or what follows its first eleven characters when it opens with the
    block-header mark. *)
Definition payload (token : string) : string :=
  match token with
  | String c _ => if Ascii.eqb c "#" then PyStr.slice_from 11 token else token
  | EmptyString => token
  end.

(** The sample a waveform token carries, if it is well formed: it is not
    blank and [float] accepts its payload. *)
Definition sample_of (token : string) : option pyfloat :=
  if String.eqb (PyStr.strip token) EmptyString then None
  else PyFloat.of_string (payload token).

(** The entry of the decoded sequence for one token. *)
Definition entry_of (token : string) : pyval :=
  match sample_of token with
  | Some f => PyFloat f
  | None => PyNone
  end.

(** The samples among the entries of a decoded sequence. *)
Fixpoint samples (data : list pyval) : list pyfloat :=
  match data with
  | [] => []
  | PyFloat f :: data' => f :: samples data'
  | _ :: data' => samples data'
  end.

(** The well-formed tokens' values, in order. *)
Fixpoint well_formed_values (tokens : list string) : list pyfloat :=
  match tokens with
  | [] => []
  | t :: tokens' =>
      match sample_of t with
      | Some f => f :: well_formed_values tokens'
      | None => well_formed_values tokens'
      end
  end.

(** The number of malformed tokens. *)
Definition malformed_count (tokens : list string) : nat :=
  List.length (filter (fun t => match sample_of t with Some _ => false | None => true end)
                 tokens).

(** No token of the stream contains a doubled exponent mark. *)
Definition no_doubled_exponent (tokens : list string) : bool :=
  forallb (fun t => negb (contains "ee" t)) tokens.

(** The value strings the instrument returns to the waveform query of a
    [get_samples] that starts after [h]. *)
Definition waveform_tokens (dev : visa_device) (h : trace) : list string :=
  ascii_reply dev
    (h ++ write_events ":WAV:FORM ASCII" (error_reply dev ":WAV:FORM ASCII" h)
       ++ [DevWrite ":WAV:POIN:MODE RAW"])%list
    ":WAV:DATA? CHAN1".

(** One warning per token that is not well formed. *)
Fixpoint warnings (tokens : list string) : list event :=
  match tokens with
  | [] => []
  | t :: tokens' =>
      match sample_of t with
      | Some _ => warnings tokens'
      | None => Print "WARNING: Dropped packet!" :: warnings tokens'
      end
  end.

(** The number of [None] entries of a decoded sequence. *)
Definition none_count (data : list pyval) : nat :=
  List.length (filter (fun v => match v with PyNone => true | _ => false end) data).

(** The commands [cmds] handed to [write] one after the other, up to the
    first whose error reply is empty: whether all went through, and the
    trace. *)
Fixpoint writes (dev : visa_device) (cmds : list string) (h : trace) : bool * trace :=
  match cmds with
  | [] => (true, h)
  | cmd :: cmds' =>
      match error_reply dev cmd h with
      | EmptyString => (false, (h ++ write_events cmd EmptyString)%list)
      | String _ _ as reply => writes dev cmds' (h ++ write_events cmd reply)%list
      end
  end.

(** The four configuration commands of [trigger_edge_config]. *)
Definition edge_commands (channel : Z) (trig_type coupling slope : string) : list string :=
  [":TRIG:EDGE:SOUR CHAN" ++ PyStr.of_Z channel;
   ":TRIG:EDGE:SWE " ++ trig_type;
   ":TRIG:EDGE:COUP " ++ coupling;
   ":TRIG:EDGE:SLOP " ++ slope].

(** A numeric level: an integer or a float. *)
Definition numeric (v : pyval) : bool :=
  match v with
  | PyInt _ | PyFloat _ => true
  | _ => false
  end.

(** The operations of the two instruments, with their arguments. *)
Inductive operation : Type :=
| OpWrite (message : string)
| OpReset
| OpCloseInstrument
| PsuTurnOff (channel : Z)
| PsuTurnOn (channel : Z)
| PsuMeasureVoltage (channel : Z) (dc : bool)
| PsuMeasureCurrent (channel : Z) (dc : bool)
| PsuMeasurePower (channel : Z) (dc : bool)
| ScopeTurnOn (channel : Z)
| ScopeTurnOff (channel : Z)
| ScopeChannelScaleSet (channel : Z) (scale_factor : pyval)
| ScopeChannelScaleGet (channel : Z)
| ScopeChannelOffsetSet (channel : Z) (offset : pyval)
| ScopeChannelOffsetGet (channel : Z)
| ScopeTimescale (timescale : pyval)
| ScopeTriggerOffset (time_offset : pyval)
| ScopeCaptureStart
| ScopeCaptureStop
| ScopeTriggerEdgeConfig (channel : Z) (level : pyval) (trig_type coupling slope : string)
| ScopeGetSamples (channel : Z)
| ScopeSamplerateGet.

(** The trace when an operation hands control back, by returning or by
    raising. *)
Definition perform (dev : visa_device) (op : operation) (h : trace) : trace :=
  match op with
  | OpWrite message => snd (BaseVisaDevice.write dev message h)
  | OpReset => snd (BaseVisaDevice.reset dev h)
  | OpCloseInstrument => snd (BaseVisaDevice.close_instrument dev h)
  | PsuTurnOff c => snd (RigolDP832.turn_off dev c h)
  | PsuTurnOn c => snd (RigolDP832.turn_on dev c h)
  | PsuMeasureVoltage c dc => snd (RigolDP832.measure_voltage dev c dc h)
  | PsuMeasureCurrent c dc => snd (RigolDP832.measure_current dev c dc h)
  | PsuMeasurePower c dc => snd (RigolDP832.measure_power dev c dc h)
  | ScopeTurnOn c => snd (Rigol1054Z.turn_on dev c h)
  | ScopeTurnOff c => snd (Rigol1054Z.turn_off dev c h)
  | ScopeChannelScaleSet c v => snd (Rigol1054Z.channel_scale_set dev c v h)
  | ScopeChannelScaleGet c => snd (Rigol1054Z.channel_scale_get dev c h)
  | ScopeChannelOffsetSet c v => snd (Rigol1054Z.channel_offset_set dev c v h)
  | ScopeChannelOffsetGet c => snd (Rigol1054Z.channel_offset_get dev c h)
  | ScopeTimescale v => snd (Rigol1054Z.timescale dev v h)
  | ScopeTriggerOffset v => snd (Rigol1054Z.trigger_offset dev v h)
  | ScopeCaptureStart => snd (Rigol1054Z.capture_start dev h)
  | ScopeCaptureStop => snd (Rigol1054Z.capture_stop dev h)
  | ScopeTriggerEdgeConfig c level t cp sl =>
      snd (Rigol1054Z.trigger_edge_config dev c level t cp sl h)
  | ScopeGetSamples c => snd (Rigol1054Z.get_samples dev c h)
  | ScopeSamplerateGet => snd (Rigol1054Z.samplerate_get dev h)
  end.

(** The commands and queries a trace sends to the instrument. *)
Fixpoint sent (tr : trace) : list string :=
  match tr with
  | [] => []
  | DevWrite m :: tr' => m :: sent tr'
  | DevAsk m :: tr' => m :: sent tr'
  | DevQueryAscii m :: tr' => m :: sent tr'
  | _ :: tr' => sent tr'
  end.

(** The measurement selector of the supply's queries. *)
Definition mode (dc : bool) : string :=
  if dc then RigolDP832.dc_command else EmptyString.

(** ** Opening an instrument: the constructors, [with] and the script *)

(** The VISA resource manager as the constructors see it: the names
    [list_resources] returns, or [None] when creating the manager or
    listing fails with [VisaIOError]; the session [open_resource] gives for
    a name, and the text that session prints as.  [open_resource] is taken
    to succeed, as the calls on a session are. *)
Record visa_bus : Type := {
  list_resources : option (list string);
  open_resource : string -> visa_device;
  resource_text : string -> string
}.

(** The attributes of an instrument object; [None] is an attribute that was
    never assigned. *)
Record instrument : Type := {
  usb_devices : option (list string);
  device : option visa_device;
  device_name : option string
}.

Module Constructors.

(** The loop of [BaseVisaDevice.__init__] over [instrument_list]. *)
Fixpoint collect_usb (instrument_list : list string) (usb_devices : list string)
    : list string :=
  match instrument_list with
  | [] => usb_devices
  | dev :: rest =>
      collect_usb rest
        (if contains "USB" dev then (usb_devices ++ [dev])%list else usb_devices)
  end.

(** [BaseVisaDevice.__init__]: a [VisaIOError] is caught and reported, and
    leaves [usb_devices] unassigned. *)
Definition BaseVisaDevice_init (bus : visa_bus) : M instrument :=
  match list_resources bus with
  | Some instrument_list =>
      ret {| usb_devices := Some (collect_usb instrument_list []);
             device := None; device_name := None |}
  | None =>
      print "Pyvisa is not able to find the connections" ;;
      ret {| usb_devices := None; device := None; device_name := None |}
  end.

(** [self.usb_devices], read. *)
Definition get_usb_devices (class_name : string) (self : instrument) : M (list string) :=
  match usb_devices self with
  | Some devs => ret devs
  | None => raise (AttributeError class_name "usb_devices")
  end.

(** The loop of [RigolDP832.__init__]: the first name holding [DP8] is
    opened and the loop left; the flag tells whether one was found. *)
Fixpoint RigolDP832_scan (bus : visa_bus) (self : instrument) (devs : list string)
    : M (bool * instrument) :=
  match devs with
  | [] => ret (false, self)
  | dev :: rest =>
      if contains "DP8" dev then
        let self := {| usb_devices := usb_devices self;
                       device := Some (open_resource bus dev);
                       device_name := Some dev |} in
        text <- lift (Py.format "Connected device! {} as {}"
                        [PyStr dev; PyStr (resource_text bus dev)]) ;;
        print text ;;
        ret (true, self)
      else RigolDP832_scan bus self rest
  end.

Definition RigolDP832_init (bus : visa_bus) : M instrument :=
  self <- BaseVisaDevice_init bus ;;
  devs <- get_usb_devices "RigolDP832" self ;;
  found <- RigolDP832_scan bus self devs ;;
  if fst found then ret (snd found)
  else raise (RuntimeError "Failed to find a DP832!").

(** The loop of [Rigol1054Z.__init__]. *)
Fixpoint Rigol1054Z_scan (bus : visa_bus) (self : instrument) (devs : list string)
    : M (bool * instrument) :=
  match devs with
  | [] => ret (false, self)
  | dev :: rest =>
      if contains "DS1Z" dev then
        let self := {| usb_devices := usb_devices self;
                       device := Some (open_resource bus dev);
                       device_name := Some dev |} in
        text <- lift (Py.format "Connected device! {} as {}"
                        [PyStr dev; PyStr (resource_text bus dev)]) ;;
        print text ;;
        ret (true, self)
      else Rigol1054Z_scan bus self rest
  end.

Definition Rigol1054Z_init (bus : visa_bus) : M instrument :=
  self <- BaseVisaDevice_init bus ;;
  devs <- get_usb_devices "Rigol1054Z" self ;;
  found <- Rigol1054Z_scan bus self devs ;;
  if fst found then ret (snd found)
  else raise (RuntimeError "Failed to find a DS1054Z!").

(** [self.device], read. *)
Definition get_device (class_name : string) (self : instrument) : M visa_device :=
  match device self with
  | Some dev => ret dev
  | None => raise (AttributeError class_name "device")
  end.

(** [__enter__] returns the object itself. *)
Definition enter (self : instrument) : M instrument := ret self.

(** [__exit__] closes the instrument and returns [None], whatever the
    exception it is told of. *)
Definition exit (class_name : string) (self : instrument) : M pyval :=
  dev <- get_device class_name self ;;
  BaseVisaDevice.close_instrument dev.

(** [with ctor as r: body]: [__exit__] runs when the body returns and when
    it raises; as it returns [None], an exception of the body is raised
    again after it. *)
Definition with_as {A} (class_name : string) (ctor : M instrument)
    (body : instrument -> M A) : M A :=
  self <- ctor ;;
  r <- enter self ;;
  fun h =>
    let (outcome, h') := body r h in
    match exit class_name self h' with
    | (Ok _, h'') => (outcome, h'')
    | (Raise e, h'') => (Raise e, h'')
    end.

(** [for v in vals: print(v)]. *)
Fixpoint print_each (vals : list pyval) : M unit :=
  match vals with
  | [] => ret tt
  | v :: vals' => print (Py.str v) ;; print_each vals'
  end.

(** The script under [if __name__ == "__main__"]. *)
Definition main (bus : visa_bus) : M unit :=
  with_as "Rigol1054Z" (Rigol1054Z_init bus) (fun r =>
    dev <- get_device "Rigol1054Z" r ;;
    Rigol1054Z.capture_stop dev ;;
    dev <- get_device "Rigol1054Z" r ;;
    vals <- Rigol1054Z.get_samples dev 1 ;;
    print_each vals).

End Constructors.

(** A bus that lists [resources], opens every name as [dev] and prints a
    session as its name in angle brackets. *)
Definition constant_bus (resources : option (list string)) (dev : visa_device) : visa_bus :=
  {| list_resources := resources;
     open_resource := fun _ => dev;
     resource_text := fun name => "<" ++ name ++ ">" |}.

(** ** Vocabulary of the further properties *)

(** A resource name is on USB and holds the family mark [token]. *)
Definition usb_with (token : string) (name : string) : bool :=
  contains "USB" name && contains token name.

(** The line a constructor prints when it has opened [name]. *)
Definition connected_line (bus : visa_bus) (name : string) : event :=
  Print ("Connected device! " ++ name ++ " as " ++ resource_text bus name).

(** The object a constructor leaves when it has opened [name] among
    [resources]. *)
Definition connected (bus : visa_bus) (resources : list string) (name : string)
    : instrument :=
  {| usb_devices := Some (filter (contains "USB") resources);
     device := Some (open_resource bus name);
     device_name := Some name |}.


(** The durations a trace sleeps for, in order. *)
Fixpoint sleeps (tr : trace) : list Q :=
  match tr with
  | [] => []
  | Sleep s :: tr' => s :: sleeps tr'
  | _ :: tr' => sleeps tr'
  end.

(** The number of error queries in a trace. *)
Fixpoint error_queries (tr : trace) : nat :=
  match tr with
  | [] => O
  | DevAsk m :: tr' =>
      if String.eqb m "SYST:ERR?" then S (error_queries tr') else error_queries tr'
  | _ :: tr' => error_queries tr'
  end.

(** The number of dropped-packet warnings in a trace. *)
Fixpoint warning_count (tr : trace) : nat :=
  match tr with
  | [] => O
  | Print text :: tr' =>
      if String.eqb text "WARNING: Dropped packet!"
      then S (warning_count tr') else warning_count tr'
  | _ :: tr' => warning_count tr'
  end.

(** The values of a reply whose value strings [float] all accepts. *)
Fixpoint parse_all (tokens : list string) : option (list pyfloat) :=
  match tokens with
  | [] => Some []
  | t :: tokens' =>
      match PyFloat.of_string t, parse_all tokens' with
      | Some f, Some fs => Some (f :: fs)
      | _, _ => None
      end
  end.

(** What a scalar query gives for the value strings of its reply. *)
Definition scalar_of (tokens : list string) : result pyval :=
  match parse_all tokens with
  | Some (f :: _) => Ok (PyFloat f)
  | Some [] => Raise IndexError
  | None => Raise ValueError
  end.

(** The events of the script once the oscilloscope is open as [dev], from
    the trace [h1] on. *)
Definition script_events (dev : visa_device) (h1 : trace) : result unit * trace :=
  match error_reply dev ":STOP" h1 with
  | EmptyString => (Raise IndexError, (write_events ":STOP" EmptyString ++ [DevClose])%list)
  | String _ _ as stop_reply =>
      let h2 := (h1 ++ write_events ":STOP" stop_reply)%list in
      match error_reply dev ":WAV:FORM ASCII" h2 with
      | EmptyString =>
          (Raise IndexError,
           (write_events ":STOP" stop_reply
              ++ write_events ":WAV:FORM ASCII" EmptyString ++ [DevClose])%list)
      | String _ _ as format_reply =>
          (Ok tt,
           (write_events ":STOP" stop_reply
              ++ write_events ":WAV:FORM ASCII" format_reply
              ++ [DevWrite ":WAV:POIN:MODE RAW"; DevQueryAscii ":WAV:DATA? CHAN1"]
              ++ warnings (waveform_tokens dev h2)
              ++ List.map (fun t => Print (Py.str (entry_of t))) (waveform_tokens dev h2)
              ++ [DevClose])%list)
      end
  end.

(** The lines a trace prints, in order. *)
Fixpoint printed (tr : trace) : list string :=
  match tr with
  | [] => []
  | Print text :: tr' => text :: printed tr'
  | _ :: tr' => printed tr'
  end.

(** A text that does not begin with whitespace. *)
Definition head_kept (s : string) : bool :=
  match s with
  | EmptyString => true
  | String c _ => negb (PyStr.is_space c)
  end.

(** A trace sleeps 0.1 s once per error query, [n] times in all, and not
    otherwise. *)
Definition paced (tr : trace) (n : nat) : Prop :=
  sleeps tr = repeat (1 # 10) n /\ error_queries tr = n.

(** The most checked commands an operation sends. *)
Definition checked_bound (op : operation) : nat :=
  match op with
  | ScopeTriggerEdgeConfig _ _ _ _ _ => 4
  | OpCloseInstrument
  | PsuMeasureVoltage _ _ | PsuMeasureCurrent _ _ | PsuMeasurePower _ _
  | ScopeChannelScaleGet _ | ScopeChannelOffsetGet _ | ScopeSamplerateGet => 0
  | _ => 1
  end.

(** The settle delay that [reset] adds once [*RST] has been checked. *)
Definition settle (dev : visa_device) (op : operation) (h : trace) : list Q :=
  match op with
  | OpReset =>
      if String.eqb (error_reply dev "*RST" h) EmptyString then [] else [2 # 10]
  | _ => []
  end.

(** The number of lower-case exponent marks in a text. *)
Fixpoint count_e (s : string) : nat :=
  match s with
  | EmptyString => O
  | String c s' => ((if Ascii.eqb c "e" then 1 else 0) + count_e s')%nat
  end.

(** * Examples *)

Example strip_ex : PyStr.strip "  dc " = "dc".
Proof. reflexivity. Qed.

Example replace_ex : PyStr.replace "4.5ee6" "ee" "e" = "4.5e6".
Proof. reflexivity. Qed.

Example of_Z_ex : PyStr.of_Z 2 = "2" /\ PyStr.of_Z 0 = "0" /\ PyStr.of_Z (-17) = "-17".
Proof. repeat split; reflexivity. Qed.

Example float_ex1 : PyFloat.of_string "1.23" = Some (Fin false 123 (-2)).
Proof. reflexivity. Qed.

Example float_ex2 : PyFloat.of_string "4.5e6" = Some (Fin false 45 5).
Proof. reflexivity. Qed.

Example float_ex3 : PyFloat.of_string "4.5ee6" = None.
Proof. reflexivity. Qed.

Example float_ex4 : PyFloat.of_string "bad" = None /\ PyFloat.of_string EmptyString = None
  /\ PyFloat.of_string "." = None /\ PyFloat.of_string " -1_0.e-2 " = Some (Fin true 10 (-2))
  /\ PyFloat.of_string ".5" = Some (Fin false 5 (-1)) /\ PyFloat.of_string "-INF" = Some (Inf true)
  /\ PyFloat.of_string "1__0" = None /\ PyFloat.of_string "1e" = None
  /\ PyFloat.of_string "0x10" = None /\ PyFloat.of_string "1 2" = None.
Proof. repeat split; reflexivity. Qed.

Example repr_ex :
  PyRepr.repr (Fin false 5 (-1)) = "0.5" /\ PyRepr.repr (Fin false 50 (-2)) = "0.5"
  /\ PyRepr.repr (Fin true 0 0) = "-0.0" /\ PyRepr.repr (Fin false 1 16) = "1e+16"
  /\ PyRepr.repr (Fin false 1 15) = "1000000000000000.0"
  /\ PyRepr.repr (Fin false 1 (-4)) = "0.0001" /\ PyRepr.repr (Fin false 15 (-6)) = "1.5e-05"
  /\ PyRepr.repr (Fin false 123 (-2)) = "1.23" /\ PyRepr.repr (Fin false 2 0) = "2.0"
  /\ PyRepr.repr (Fin true 12345 97) = "-1.2345e+101".
Proof. repeat split; reflexivity. Qed.

Example format_ex1 : Py.format ":OUTP CH{},OFF" [PyInt 2] = Ok ":OUTP CH2,OFF".
Proof. reflexivity. Qed.

Example format_ex2 :
  Py.format ":MEAS:VOLT{}? CH{}" [PyStr ":DC"; PyInt 3] = Ok ":MEAS:VOLT:DC? CH3".
Proof. reflexivity. Qed.

Example format_ex3 :
  Py.format ":TRIG:EDGE:LEV {.5f}" [PyFloat (Fin false 5 (-1))]
  = Raise (AttributeError "float" "5f").
Proof. reflexivity. Qed.

Example format_ex4 : Py.format "{.real} {{}}" [PyFloat (Fin false 5 (-1))] = Ok "0.5 {}".
Proof. reflexivity. Qed.

Example float_spaces_ex :
  PyFloat.of_string (String (ascii_of_N 28) "1") = None
  /\ PyStr.strip (String (ascii_of_N 28) " 1 ") = "1"
  /\ PyFloat.of_string " 1 " = Some (Fin false 1 0).
Proof. repeat split; reflexivity. Qed.

Example write_ex :
  BaseVisaDevice.write (constant_device no_error_reply []) ":STOP" []
  = (Ok (PyInt 0),
     [DevWrite ":STOP"; Sleep (1 # 10); DevAsk "SYST:ERR?";
      Print "`:STOP` recieved. No error occured"]).
Proof. reflexivity. Qed.

Example write_empty_reply_ex :
  BaseVisaDevice.write (constant_device EmptyString []) ":STOP" []
  = (Raise IndexError, [DevWrite ":STOP"; Sleep (1 # 10); DevAsk "SYST:ERR?"]).
Proof. reflexivity. Qed.

Example reset_ex :
  BaseVisaDevice.reset (constant_device no_error_reply []) []
  = (Ok PyNone,
     [DevWrite "*RST"; Sleep (1 # 10); DevAsk "SYST:ERR?";
      Print "`*RST` recieved. No error occured"; Sleep (2 # 10)]).
Proof. reflexivity. Qed.

Example measure_voltage_ex :
  RigolDP832.measure_voltage (constant_device no_error_reply ["3.3"]) 3 true []
  = (Ok (PyFloat (Fin false 33 (-1))), [DevQueryAscii ":MEAS:VOLT:DC? CH3"]).
Proof. reflexivity. Qed.

Example get_samples_ex :
  Rigol1054Z.get_samples (constant_device no_error_reply ["#9000000012-1.5e-2"; "x"]) 3 []
  = (Ok [PyFloat (Fin true 15 (-3)); PyNone],
     [DevWrite ":WAV:FORM ASCII"; Sleep (1 # 10); DevAsk "SYST:ERR?";
      Print "`:WAV:FORM ASCII` recieved. No error occured";
      DevWrite ":WAV:POIN:MODE RAW"; DevQueryAscii ":WAV:DATA? CHAN1";
      Print "WARNING: Dropped packet!"]).
Proof. reflexivity. Qed.

Example trigger_edge_config_coupling_ex :
  Rigol1054Z.trigger_edge_config (constant_device no_error_reply []) 1 (PyInt 1)
    "single" "GND" "rising" []
  = (Raise (RuntimeError "Invalid coupling type!"), [])
  /\ Rigol1054Z.trigger_edge_config (constant_device no_error_reply []) 1 (PyInt 1)
       "single" " ac " "up" []
     = (Raise (KeyError "up"), []).
Proof. split; reflexivity. Qed.

Example main_ex :
  Constructors.main
    (constant_bus (Some ["TCPIP::DS1Z"; "USB0::DP8C"; "USB0::DS1ZA"; "USB1::DS1ZB"])
       (constant_device no_error_reply ["1.5"; "x"])) []
  = (Ok tt,
     [Print "Connected device! USB0::DS1ZA as <USB0::DS1ZA>";
      DevWrite ":STOP"; Sleep (1 # 10); DevAsk "SYST:ERR?";
      Print "`:STOP` recieved. No error occured";
      DevWrite ":WAV:FORM ASCII"; Sleep (1 # 10); DevAsk "SYST:ERR?";
      Print "`:WAV:FORM ASCII` recieved. No error occured";
      DevWrite ":WAV:POIN:MODE RAW"; DevQueryAscii ":WAV:DATA? CHAN1";
      Print "WARNING: Dropped packet!"; Print "1.5"; Print "None"; DevClose]).
Proof. reflexivity. Qed.

Example main_unanswered_ex :
  Constructors.main
    (constant_bus (Some ["USB0::DS1ZA"]) (constant_device EmptyString [])) []
  = (Raise IndexError,
     [Print "Connected device! USB0::DS1ZA as <USB0::DS1ZA>";
      DevWrite ":STOP"; Sleep (1 # 10); DevAsk "SYST:ERR?"; DevClose]).
Proof. reflexivity. Qed.

Example main_bus_fails_ex :
  Constructors.main (constant_bus None (constant_device no_error_reply [])) []
  = (Raise (AttributeError "Rigol1054Z" "usb_devices"),
     [Print "Pyvisa is not able to find the connections"]).
Proof. reflexivity. Qed.

(** * Properties *)

(** ** The write-then-verify exchange *)

Lemma item_first (c : ascii) (r : string) :
  Py.item (String c r) 0 = Ok (String c EmptyString).
Proof.
  unfold Py.item, PyStr.len. cbn [String.length].
  replace (0 <? 0) with false by reflexivity.
  replace (0 <=? 0) with true by reflexivity.
  replace (0 <? Z.of_nat (S (String.length r))) with true
    by (symmetry; apply Z.ltb_lt; lia).
  destruct r; reflexivity.
Qed.

Lemma item_empty : Py.item EmptyString 0 = Raise IndexError.
Proof. reflexivity. Qed.

Lemma write_run (dev : visa_device) (message : string) (h : trace) :
  BaseVisaDevice.write dev message h =
  (match error_reply dev message h with
   | EmptyString => Raise IndexError
   | String _ _ => Ok (PyInt 0)
   end,
   (h ++ write_events message (error_reply dev message h))%list).
Proof.
  unfold BaseVisaDevice.write, error_reply, write_events, bind, Device.write,
    Device.ask, sleep, print, emit, lift, ret.
  rewrite <- !app_assoc. cbn [app].
  destruct (ask_reply dev (h ++ [DevWrite message; Sleep (1 # 10)])%list "SYST:ERR?")
    as [|c r].
  - rewrite item_empty. reflexivity.
  - rewrite item_first. cbn. rewrite <- app_assoc. reflexivity.
Qed.

(** How a call that formats one command and hands it to [write]
    continues. *)
Lemma write_then_none (dev : visa_device) (cmd : string) (h : trace) :
  (BaseVisaDevice.write dev cmd ;; ret PyNone) h = written dev cmd h.
Proof.
  unfold bind, written. rewrite write_run.
  destruct (error_reply dev cmd h); reflexivity.
Qed.

Lemma write_events_start (message reply : string) :
  exists rest,
    write_events message reply
    = DevWrite message :: Sleep (1 # 10) :: DevAsk "SYST:ERR?" :: rest
    /\ (rest = [] \/ exists text, rest = [Print text]).
Proof.
  unfold write_events. destruct reply; cbn.
  - exists []. auto.
  - eexists. split; [reflexivity|]. right. eexists. reflexivity.
Qed.

Lemma psu_turn_on_run (dev : visa_device) (channel : Z) (h : trace) :
  RigolDP832.turn_on dev channel h =
  if (channel <=? 0) || (channel >? 3)
  then (Raise (RuntimeError "Invalid channel!"), h)
  else written dev (":OUTP CH" ++ PyStr.of_Z channel ++ ",ON") h.
Proof.
  unfold RigolDP832.turn_on.
  destruct ((channel <=? 0) || (channel >? 3)); [reflexivity|].
  rewrite <- write_then_none. reflexivity.
Qed.

Lemma psu_turn_off_run (dev : visa_device) (channel : Z) (h : trace) :
  RigolDP832.turn_off dev channel h =
  if (channel <=? 0) || (channel >? 3)
  then (Raise (RuntimeError "Invalid channel!"), h)
  else written dev (":OUTP CH" ++ PyStr.of_Z channel ++ ",OFF") h.
Proof.
  unfold RigolDP832.turn_off.
  destruct ((channel <=? 0) || (channel >? 3)); [reflexivity|].
  rewrite <- write_then_none. reflexivity.
Qed.

Lemma scope_turn_on_run (dev : visa_device) (channel : Z) (h : trace) :
  Rigol1054Z.turn_on dev channel h =
  if (channel <=? 0) || (channel >? 4)
  then (Raise (RuntimeError "Invalid channel!"), h)
  else written dev (":CHAN" ++ PyStr.of_Z channel ++ ":DISP ON") h.
Proof.
  unfold Rigol1054Z.turn_on.
  destruct ((channel <=? 0) || (channel >? 4)); [reflexivity|].
  rewrite <- write_then_none. reflexivity.
Qed.

Lemma scope_turn_off_run (dev : visa_device) (channel : Z) (h : trace) :
  Rigol1054Z.turn_off dev channel h =
  if (channel <=? 0) || (channel >? 4)
  then (Raise (RuntimeError "Invalid channel!"), h)
  else written dev (":CHAN" ++ PyStr.of_Z channel ++ ":DISP OFF") h.
Proof.
  unfold Rigol1054Z.turn_off.
  destruct ((channel <=? 0) || (channel >? 4)); [reflexivity|].
  rewrite <- write_then_none. reflexivity.
Qed.

Lemma out_of_range (channel top : Z) :
  (channel <=? 0) || (channel >? top) = false <-> 1 <= channel <= top.
Proof.
  rewrite orb_false_iff, Z.leb_gt, Z.gtb_ltb, Z.ltb_ge. lia.
Qed.

Lemma written_starts (dev : visa_device) (cmd : string) (h : trace) :
  exists rest,
    snd (written dev cmd h) = (h ++ DevWrite cmd :: rest)%list
    /\ fst (written dev cmd h) <> Raise (RuntimeError "Invalid channel!").
Proof.
  unfold written. destruct (write_events_start cmd (error_reply dev cmd h))
    as [rest [E _]].
  rewrite E. eexists. split; [reflexivity|].
  cbn. destruct (error_reply dev cmd h); discriminate.
Qed.

(** C1 (the code departs from the claim).  [write] sends the command and
    the error query, but the report does not depend on what the instrument
    answered: every non-empty reply, the reply [1, "Undefined header"]
    included, is logged as no error and reported as [0], exactly as the
    reply [0,"No error"] is; an empty reply raises [IndexError]. *)
Theorem write_reports_ok_for_error_reply :
  (forall dev message h,
     fst (BaseVisaDevice.write dev message h) =
     if String.eqb (error_reply dev message h) EmptyString
     then Raise IndexError else Ok (PyInt 0))
  /\ (forall tokens message h,
        BaseVisaDevice.write (constant_device undefined_header_reply tokens) message h =
        (Ok (PyInt 0),
         (h ++ [DevWrite message; Sleep (1 # 10); DevAsk "SYST:ERR?";
                Print ("`" ++ message ++ "` recieved. No error occured")%string])%list))
  /\ (forall tokens message h,
        BaseVisaDevice.write (constant_device undefined_header_reply tokens) message h =
        BaseVisaDevice.write (constant_device no_error_reply tokens) message h).
Proof.
  split; [|split].
  - intros. rewrite write_run. cbn [fst].
    destruct (error_reply dev message h); reflexivity.
  - intros. rewrite write_run. reflexivity.
  - intros. rewrite !write_run. reflexivity.
Qed.

(** C5.  On both variants [turn_on] and [turn_off] pass validation for
    every channel in [1, max] (3 for the supply, 4 for the scope) and go on
    to write their command; for every other channel they raise the
    invalid-channel error with nothing sent.  Channels 0 and 4 fail on the
    supply and channel 5 fails on the scope. *)
Theorem turn_on_off_channel_validation :
  (forall dev channel h,
     (1 <= channel <= 3 ->
      RigolDP832.turn_on dev channel h
        = written dev (":OUTP CH" ++ PyStr.of_Z channel ++ ",ON") h
      /\ RigolDP832.turn_off dev channel h
        = written dev (":OUTP CH" ++ PyStr.of_Z channel ++ ",OFF") h)
     /\ (~ 1 <= channel <= 3 ->
         RigolDP832.turn_on dev channel h = (Raise (RuntimeError "Invalid channel!"), h)
         /\ RigolDP832.turn_off dev channel h = (Raise (RuntimeError "Invalid channel!"), h))
     /\ (1 <= channel <= 4 ->
         Rigol1054Z.turn_on dev channel h
           = written dev (":CHAN" ++ PyStr.of_Z channel ++ ":DISP ON") h
         /\ Rigol1054Z.turn_off dev channel h
           = written dev (":CHAN" ++ PyStr.of_Z channel ++ ":DISP OFF") h)
     /\ (~ 1 <= channel <= 4 ->
         Rigol1054Z.turn_on dev channel h = (Raise (RuntimeError "Invalid channel!"), h)
         /\ Rigol1054Z.turn_off dev channel h = (Raise (RuntimeError "Invalid channel!"), h)))
  /\ (forall dev cmd h, exists rest,
        snd (written dev cmd h) = (h ++ DevWrite cmd :: rest)%list
        /\ fst (written dev cmd h) <> Raise (RuntimeError "Invalid channel!"))
  /\ (forall dev h,
        RigolDP832.turn_on dev 0 h = (Raise (RuntimeError "Invalid channel!"), h)
        /\ RigolDP832.turn_off dev 0 h = (Raise (RuntimeError "Invalid channel!"), h)
        /\ RigolDP832.turn_on dev 4 h = (Raise (RuntimeError "Invalid channel!"), h)
        /\ RigolDP832.turn_off dev 4 h = (Raise (RuntimeError "Invalid channel!"), h)
        /\ Rigol1054Z.turn_on dev 5 h = (Raise (RuntimeError "Invalid channel!"), h)
        /\ Rigol1054Z.turn_off dev 5 h = (Raise (RuntimeError "Invalid channel!"), h)).
Proof.
  split; [|split].
  - intros dev channel h.
    rewrite psu_turn_on_run, psu_turn_off_run, scope_turn_on_run, scope_turn_off_run.
    split; [|split; [|split]]; intros R.
    1, 3: apply out_of_range in R; rewrite R; split; reflexivity.
    all: destruct ((channel <=? 0) || (channel >? _)) eqn:E;
      [split; reflexivity | apply out_of_range in E; contradiction].
  - apply written_starts.
  - intros. repeat split; reflexivity.
Qed.

(** The theorem at channel 2 of the supply and the scope, and at channel 7,
    which both reject. *)
Lemma turn_on_off_channel_validation_witness :
  (RigolDP832.turn_on (constant_device no_error_reply []) 2 []
   = written (constant_device no_error_reply []) ":OUTP CH2,ON" []
   /\ RigolDP832.turn_off (constant_device no_error_reply []) 2 []
   = written (constant_device no_error_reply []) ":OUTP CH2,OFF" [])
  /\ (Rigol1054Z.turn_on (constant_device no_error_reply []) 7 []
      = (Raise (RuntimeError "Invalid channel!"), [])
      /\ Rigol1054Z.turn_off (constant_device no_error_reply []) 7 []
      = (Raise (RuntimeError "Invalid channel!"), [])).
Proof.
  pose proof (proj1 turn_on_off_channel_validation
                (constant_device no_error_reply []) 2 []) as [P _].
  pose proof (proj1 turn_on_off_channel_validation
                (constant_device no_error_reply []) 7 []) as [_ [_ [_ S]]].
  split.
  - apply P. lia.
  - apply S. lia.
Defined.

Lemma reset_run (dev : visa_device) (h : trace) :
  BaseVisaDevice.reset dev h =
  match error_reply dev "*RST" h with
  | EmptyString => (Raise IndexError, (h ++ write_events "*RST" EmptyString)%list)
  | String _ _ as reply =>
      (Ok PyNone, (h ++ write_events "*RST" reply ++ [Sleep (2 # 10)])%list)
  end.
Proof.
  unfold BaseVisaDevice.reset, bind. rewrite write_run.
  destruct (error_reply dev "*RST" h); [reflexivity|].
  unfold sleep, emit, ret. rewrite <- app_assoc. reflexivity.
Qed.

(** C8.  Every [write] pauses 0.1 s between sending the command and the
    error query.  [reset] sends [*RST] through [write] and, once that has
    returned, pauses a further 0.2 s before it returns, so a reset that
    returns has waited 0.3 s in all, more than the 0.1 s of a write. *)
Theorem write_and_reset_delays :
  (forall dev message h, exists rest,
     snd (BaseVisaDevice.write dev message h)
     = (h ++ DevWrite message :: Sleep (1 # 10) :: DevAsk "SYST:ERR?" :: rest)%list
     /\ (total_sleep (write_events message (error_reply dev message h)) == 1 # 10)%Q)
  /\ (forall dev h,
        match error_reply dev "*RST" h with
        | EmptyString =>
            BaseVisaDevice.reset dev h
            = (Raise IndexError, (h ++ write_events "*RST" EmptyString)%list)
        | String _ _ as reply =>
            BaseVisaDevice.reset dev h
            = (Ok PyNone, (h ++ write_events "*RST" reply ++ [Sleep (2 # 10)])%list)
            /\ (total_sleep (write_events "*RST" reply ++ [Sleep (2 # 10)])%list == 3 # 10)%Q
            /\ (total_sleep (write_events "*RST" reply)
                < total_sleep (write_events "*RST" reply ++ [Sleep (2 # 10)])%list)%Q
        end)
  /\ (1 # 10 < 2 # 10)%Q.
Proof.
  split; [|split].
  - intros. rewrite write_run. cbn [snd].
    destruct (write_events_start message (error_reply dev message h))
      as [rest [E _]].
    exists rest. rewrite E. split; [reflexivity|].
    rewrite <- E. unfold write_events.
    destruct (error_reply dev message h); reflexivity.
  - intros. rewrite reset_run.
    destruct (error_reply dev "*RST" h); [reflexivity|].
    repeat split.
  - reflexivity.
Qed.

(** C9.  On the supply, [turn_on(2)] writes [:OUTP CH2,ON] and
    [turn_off(2)] writes [:OUTP CH2,OFF]: two different commands with the
    common prefix [:OUTP CH2,], which holds the channel, followed by [ON]
    in the one and [OFF] in the other. *)
Theorem psu_on_off_commands :
  forall dev h, exists prefix rest_on rest_off,
    snd (RigolDP832.turn_on dev 2 h) = (h ++ DevWrite (prefix ++ "ON") :: rest_on)%list
    /\ snd (RigolDP832.turn_off dev 2 h) = (h ++ DevWrite (prefix ++ "OFF") :: rest_off)%list
    /\ prefix ++ "ON" <> prefix ++ "OFF"
    /\ prefix = ":OUTP CH" ++ PyStr.of_Z 2 ++ ","
    /\ contains "ON" prefix = false /\ contains "OFF" prefix = false
    /\ contains "2" (prefix ++ "ON") = true
    /\ contains "2" (prefix ++ "OFF") = true.
Proof.
  intros dev h. exists ":OUTP CH2,".
  rewrite psu_turn_on_run, psu_turn_off_run. cbn [Z.leb Z.gtb orb Z.compare Pos.compare Pos.compare_cont].
  destruct (written_starts dev ":OUTP CH2,ON" h) as [on [Hon _]].
  destruct (written_starts dev ":OUTP CH2,OFF" h) as [off [Hoff _]].
  exists on, off.
  split; [exact Hon|]. split; [exact Hoff|].
  split; [discriminate|]. repeat split.
Qed.

(** ** The waveform decoder *)

Lemma len_zero (s : string) : (PyStr.len s =? 0) = String.eqb s EmptyString.
Proof. destruct s; reflexivity. Qed.

Lemma conv_string_run (token : string) (h : trace) :
  Rigol1054Z.conv_string token h =
  (Ok (entry_of token),
   (h ++ match sample_of token with
         | Some _ => []
         | None => [Print "WARNING: Dropped packet!"]
         end)%list).
Proof.
  unfold Rigol1054Z.conv_string, entry_of, sample_of, bind.
  rewrite len_zero.
  destruct token as [|c r].
  - reflexivity.
  - destruct (String.eqb (PyStr.strip (String c r)) EmptyString); [reflexivity|].
    cbn [negb]. unfold lift at 1. rewrite item_first.
    unfold payload.
    replace (String.eqb (String c EmptyString) "#") with (Ascii.eqb c "#")
      by (cbn; destruct (Ascii.eqb c "#"); reflexivity).
    unfold Py.float.
    destruct (PyFloat.of_string
                (if Ascii.eqb c "#" then PyStr.slice_from 11 (String c r) else String c r)).
    + unfold ret. rewrite app_nil_r. reflexivity.
    + reflexivity.
Qed.

Lemma decode_run (tokens : list string) (h : trace) :
  mapM Rigol1054Z.conv_string tokens h
  = (Ok (List.map entry_of tokens), (h ++ warnings tokens)%list).
Proof.
  revert h. induction tokens as [|t tokens IH]; intros h.
  - cbn. unfold ret. rewrite app_nil_r. reflexivity.
  - cbn [mapM List.map warnings]. unfold bind at 1.
    rewrite conv_string_run. unfold bind at 1. rewrite IH.
    unfold ret. rewrite <- app_assoc.
    destruct (sample_of t); reflexivity.
Qed.

Lemma get_samples_run (dev : visa_device) (channel : Z) (h : trace) :
  Rigol1054Z.get_samples dev channel h =
  match error_reply dev ":WAV:FORM ASCII" h with
  | EmptyString =>
      (Raise IndexError, (h ++ write_events ":WAV:FORM ASCII" EmptyString)%list)
  | String _ _ as reply =>
      (Ok (List.map entry_of (waveform_tokens dev h)),
       (h ++ write_events ":WAV:FORM ASCII" reply
          ++ [DevWrite ":WAV:POIN:MODE RAW"; DevQueryAscii ":WAV:DATA? CHAN1"]
          ++ warnings (waveform_tokens dev h))%list)
  end.
Proof.
  unfold Rigol1054Z.get_samples, waveform_tokens, bind. rewrite write_run.
  destruct (error_reply dev ":WAV:FORM ASCII" h) as [|c r]; [reflexivity|].
  unfold Device.write, emit, Device.query_ascii_values.
  rewrite decode_run. unfold ret.
  rewrite <- !app_assoc. reflexivity.
Qed.

Lemma samples_of_entries (tokens : list string) :
  samples (List.map entry_of tokens) = well_formed_values tokens.
Proof.
  induction tokens as [|t tokens IH]; [reflexivity|].
  cbn [List.map samples well_formed_values]. unfold entry_of at 1.
  destruct (sample_of t); cbn; rewrite IH; reflexivity.
Qed.

Lemma token_count (tokens : list string) :
  List.length tokens
  = (List.length (well_formed_values tokens) + malformed_count tokens)%nat.
Proof.
  unfold malformed_count.
  induction tokens as [|t tokens IH]; [reflexivity|].
  cbn [List.length well_formed_values filter].
  destruct (sample_of t); cbn [List.length]; lia.
Qed.

Lemma entry_none (token : string) :
  PyStr.strip token = EmptyString \/ PyFloat.of_string (payload token) = None ->
  sample_of token = None.
Proof.
  unfold sample_of. intros [B | U].
  - rewrite B. reflexivity.
  - rewrite U. destruct (String.eqb _ _); reflexivity.
Qed.

Lemma none_count_entries (tokens : list string) :
  none_count (List.map entry_of tokens) = malformed_count tokens.
Proof.
  unfold none_count, malformed_count.
  induction tokens as [|t tokens IH]; [reflexivity|].
  cbn [List.map filter]. unfold entry_of at 1.
  destruct (sample_of t); cbn [List.length]; rewrite IH; reflexivity.
Qed.

(** C2, the claim as stated fails: the five tokens of the example decode
    to five entries, [None] standing where a token was not accepted, and
    not to the two samples 1.23 and 4.5e6. *)
Lemma get_samples_example_has_five_entries :
  fst (Rigol1054Z.get_samples (constant_device no_error_reply example_tokens) 1 [])
  = Ok [PyNone; PyFloat (Fin false 123 (-2)); PyNone; PyNone; PyNone]
  /\ fst (Rigol1054Z.get_samples (constant_device no_error_reply example_tokens) 1 [])
     <> Ok [PyFloat (Fin false 123 (-2)); PyFloat (Fin false 45 5)]
  /\ PyFloat.of_string "1.23" = Some (Fin false 123 (-2))
  /\ PyFloat.of_string "4.5e6" = Some (Fin false 45 5).
Proof.
  repeat split; try reflexivity. discriminate.
Qed.

(** C2, amended.  When the format command was acknowledged and no token
    holds a doubled exponent mark, a stream of N well-formed and M
    malformed (blank or unparseable) tokens decodes without an exception
    to N + M entries, one per token and in the tokens' order: the sample
    of each well-formed token and [None] for each malformed one, so that
    the samples among the entries are the N values in their original
    order.  The tokens [#800000005], [1.23], the empty token and [bad]
    decode to [None, 1.23, None, None]. *)
Theorem get_samples_one_entry_per_token :
  (forall dev channel h,
     error_reply dev ":WAV:FORM ASCII" h <> EmptyString ->
     no_doubled_exponent (waveform_tokens dev h) = true ->
     exists data tr,
       Rigol1054Z.get_samples dev channel h = (Ok data, tr)
       /\ List.length data
          = (List.length (well_formed_values (waveform_tokens dev h))
             + malformed_count (waveform_tokens dev h))%nat
       /\ samples data = well_formed_values (waveform_tokens dev h)
       /\ forall i token,
            nth_error (waveform_tokens dev h) i = Some token ->
            nth_error data i = Some (entry_of token))
  /\ fst (Rigol1054Z.get_samples
            (constant_device no_error_reply ["#800000005"; "1.23"; EmptyString; "bad"])
            1 [])
     = Ok [PyNone; PyFloat (Fin false 123 (-2)); PyNone; PyNone].
Proof.
  split; [|reflexivity].
  intros dev channel h R _. rewrite get_samples_run.
  destruct (error_reply dev ":WAV:FORM ASCII" h) as [|c r]; [contradiction|].
  eexists. eexists. split; [reflexivity|].
  split; [|split].
  - rewrite length_map. apply token_count.
  - apply samples_of_entries.
  - intros i token T. rewrite nth_error_map, T. reflexivity.
Qed.

(** The amended claim at an instrument that acknowledges every command
    and returns the four tokens. *)
Lemma get_samples_one_entry_per_token_witness :
  exists data tr,
    Rigol1054Z.get_samples
      (constant_device no_error_reply ["#800000005"; "1.23"; EmptyString; "bad"]) 1 []
    = (Ok data, tr)
    /\ List.length data = (1 + 3)%nat
    /\ samples data = [Fin false 123 (-2)]
    /\ forall i token,
         nth_error ["#800000005"; "1.23"; EmptyString; "bad"] i = Some token ->
         nth_error data i = Some (entry_of token).
Proof.
  apply (proj1 get_samples_one_entry_per_token
           (constant_device no_error_reply ["#800000005"; "1.23"; EmptyString; "bad"])
           1 []).
  - discriminate.
  - reflexivity.
Defined.

(** C10.  [conv_string] turns every token that is blank, or whose text
    after header stripping [float] rejects, into [None] (with a warning);
    [get_samples] returns these [None]s in place, so its result has one
    entry per token, malformed tokens included. *)
Theorem conv_string_none_is_kept :
  (forall token h,
     PyStr.strip token = EmptyString \/ PyFloat.of_string (payload token) = None ->
     Rigol1054Z.conv_string token h
     = (Ok PyNone, (h ++ [Print "WARNING: Dropped packet!"])%list))
  /\ (forall dev channel h,
        error_reply dev ":WAV:FORM ASCII" h <> EmptyString ->
        exists data tr,
          Rigol1054Z.get_samples dev channel h = (Ok data, tr)
          /\ List.length data = List.length (waveform_tokens dev h)
          /\ none_count data = malformed_count (waveform_tokens dev h)
          /\ forall i token,
               nth_error (waveform_tokens dev h) i = Some token ->
               PyStr.strip token = EmptyString
               \/ PyFloat.of_string (payload token) = None ->
               nth_error data i = Some PyNone).
Proof.
  split.
  - intros token h B. rewrite conv_string_run. unfold entry_of.
    rewrite (entry_none token B). reflexivity.
  - intros dev channel h R. rewrite get_samples_run.
    destruct (error_reply dev ":WAV:FORM ASCII" h) as [|c r]; [contradiction|].
    eexists. eexists. split; [reflexivity|].
    split; [apply length_map|]. split; [apply none_count_entries|].
    intros i token T B. rewrite nth_error_map, T. cbn. unfold entry_of.
    rewrite (entry_none token B). reflexivity.
Qed.

(** The theorem at the blank token and at the example stream, whose five
    tokens give five entries. *)
Lemma conv_string_none_is_kept_witness :
  Rigol1054Z.conv_string "  " [] = (Ok PyNone, [Print "WARNING: Dropped packet!"])
  /\ exists data tr,
       Rigol1054Z.get_samples (constant_device no_error_reply example_tokens) 1 []
       = (Ok data, tr)
       /\ List.length data = 5%nat
       /\ none_count data = 4%nat
       /\ forall i token,
            nth_error example_tokens i = Some token ->
            PyStr.strip token = EmptyString
            \/ PyFloat.of_string (payload token) = None ->
            nth_error data i = Some PyNone.
Proof.
  split.
  - apply (proj1 conv_string_none_is_kept "  " []). left. reflexivity.
  - apply (proj2 conv_string_none_is_kept
             (constant_device no_error_reply example_tokens) 1 []).
    discriminate.
Defined.

(** ** Sequences of commands *)

(** A [write] inside a longer call: the call ends there when the error
    reply is empty, and goes on after the events of the [write]
    otherwise. *)
Lemma bind_write {A} (dev : visa_device) (cmd : string) (k : pyval -> M A) (h : trace) :
  (v <- BaseVisaDevice.write dev cmd ;; k v) h =
  match error_reply dev cmd h with
  | EmptyString => (Raise IndexError, (h ++ write_events cmd EmptyString)%list)
  | String _ _ as reply => k (PyInt 0) (h ++ write_events cmd reply)%list
  end.
Proof.
  unfold bind. rewrite write_run.
  destruct (error_reply dev cmd h); reflexivity.
Qed.

Lemma bind_lift {A B} (r : result A) (k : A -> M B) (h : trace) :
  (x <- lift r ;; k x) h =
  match r with
  | Ok a => k a h
  | Raise e => (Raise e, h)
  end.
Proof. unfold bind, lift. destruct r; reflexivity. Qed.

Lemma append_empty (s : string) : s ++ EmptyString = s.
Proof. induction s as [|c s IH]; cbn; [|rewrite IH]; reflexivity. Qed.

Lemma format_sour (channel : Z) :
  Py.format ":TRIG:EDGE:SOUR CHAN{}" [PyInt channel]
  = Ok (":TRIG:EDGE:SOUR CHAN" ++ PyStr.of_Z channel).
Proof. unfold Py.format. cbn. rewrite append_empty. reflexivity. Qed.

Lemma format_swe (s : string) :
  Py.format ":TRIG:EDGE:SWE {}" [PyStr s] = Ok (":TRIG:EDGE:SWE " ++ s).
Proof. unfold Py.format. cbn. rewrite append_empty. reflexivity. Qed.

Lemma format_coup (s : string) :
  Py.format ":TRIG:EDGE:COUP {}" [PyStr s] = Ok (":TRIG:EDGE:COUP " ++ s).
Proof. unfold Py.format. cbn. rewrite append_empty. reflexivity. Qed.

Lemma format_slop (s : string) :
  Py.format ":TRIG:EDGE:SLOP {}" [PyStr s] = Ok (":TRIG:EDGE:SLOP " ++ s).
Proof. unfold Py.format. cbn. rewrite append_empty. reflexivity. Qed.

Lemma level_format (f : pyfloat) :
  Py.format ":TRIG:EDGE:LEV {.5f}" [PyFloat f] = Raise (AttributeError "float" "5f").
Proof. reflexivity. Qed.

(** What [trigger_edge_config] does: the checks of its arguments, the four
    configuration commands, and then the exception of the level line. *)
Lemma trigger_edge_config_run (dev : visa_device) (channel : Z) (level : pyval)
    (trig_type coupling slope : string) (h : trace) :
  Rigol1054Z.trigger_edge_config dev channel level trig_type coupling slope h =
  let coupling' := PyStr.upper (PyStr.strip coupling) in
  if negb (String.eqb coupling' "DC") && negb (String.eqb coupling' "AC")
  then (Raise (RuntimeError "Invalid coupling type!"), h)
  else
    match getitem [("falling", "NEG"); ("rising", "POS")] (PyStr.lower (PyStr.strip slope)) with
    | Raise e => (Raise e, h)
    | Ok slope' =>
        match getitem [("single", "SING")] (PyStr.lower (PyStr.strip trig_type)) with
        | Raise e => (Raise e, h)
        | Ok trig_type' =>
            match writes dev (edge_commands channel trig_type' coupling' slope') h with
            | (false, h') => (Raise IndexError, h')
            | (true, h') =>
                (Raise match Py.float level with
                       | Ok _ => AttributeError "float" "5f"
                       | Raise e => e
                       end, h')
            end
        end
    end.
Proof.
  unfold Rigol1054Z.trigger_edge_config. cbv zeta.
  destruct (negb (String.eqb (PyStr.upper (PyStr.strip coupling)) "DC")
            && negb (String.eqb (PyStr.upper (PyStr.strip coupling)) "AC"));
    [reflexivity|].
  unfold bind at 1. unfold ret at 1.
  rewrite bind_lift.
  destruct (getitem _ (PyStr.lower (PyStr.strip slope))) as [slope'|e]; [|reflexivity].
  rewrite bind_lift.
  destruct (getitem _ (PyStr.lower (PyStr.strip trig_type))) as [trig'|e]; [|reflexivity].
  unfold edge_commands, writes.
  rewrite bind_lift, format_sour, bind_write.
  destruct (error_reply dev _ h); [reflexivity|].
  rewrite bind_lift, format_swe, bind_write.
  destruct (error_reply dev _ _); [reflexivity|].
  rewrite bind_lift, format_coup, bind_write.
  destruct (error_reply dev _ _); [reflexivity|].
  rewrite bind_lift, format_slop, bind_write.
  destruct (error_reply dev _ _); [reflexivity|].
  rewrite bind_lift.
  destruct (Py.float level) as [lev|e]; [|reflexivity].
  rewrite bind_lift, level_format. reflexivity.
Qed.

Lemma unchecked_after_write (cmd reply : string) (tr : trace) :
  unchecked_writes (write_events cmd reply ++ tr)%list = unchecked_writes tr.
Proof. unfold write_events. destruct reply; reflexivity. Qed.

Lemma unchecked_write_events (cmd reply : string) :
  unchecked_writes (write_events cmd reply) = [].
Proof. unfold write_events. destruct reply; reflexivity. Qed.

Lemma sent_app (tr1 tr2 : trace) : sent (tr1 ++ tr2)%list = (sent tr1 ++ sent tr2)%list.
Proof.
  induction tr1 as [|e tr1 IH]; [reflexivity|].
  destruct e; cbn; rewrite IH; reflexivity.
Qed.

Lemma sent_write_events (cmd reply : string) :
  sent (write_events cmd reply) = [cmd; "SYST:ERR?"].
Proof. unfold write_events. destruct reply; reflexivity. Qed.

(** A run of [write]s extends the trace, leaves no command unchecked and
    sends nothing but its commands and their error queries. *)
Lemma writes_trace (dev : visa_device) (cmds : list string) (h : trace) :
  exists tr,
    snd (writes dev cmds h) = (h ++ tr)%list
    /\ unchecked_writes tr = []
    /\ (forall m, In m (sent tr) -> In m cmds \/ m = "SYST:ERR?")
    /\ (fst (writes dev cmds h) = true ->
        sent tr = flat_map (fun c => [c; "SYST:ERR?"]) cmds).
Proof.
  revert h. induction cmds as [|cmd cmds IH]; intros h.
  - exists []. cbn. rewrite app_nil_r. repeat split. contradiction.
  - cbn [writes]. destruct (error_reply dev cmd h) as [|c r] eqn:E.
    + exists (write_events cmd EmptyString). cbn [snd fst].
      split; [reflexivity|]. split; [reflexivity|]. split; [|discriminate].
      intros m [<- | [<- | []]]; [left; left; reflexivity | right; reflexivity].
    + destruct (IH (h ++ write_events cmd (String c r))%list) as [tr [T [U [S F]]]].
      exists (write_events cmd (String c r) ++ tr)%list.
      rewrite T, app_assoc. split; [reflexivity|].
      rewrite unchecked_after_write. split; [exact U|].
      rewrite sent_app, sent_write_events. split.
      * intros m [<- | [<- | Hm]]; [left; left; reflexivity | right; reflexivity |].
        destruct (S m Hm) as [In1 | ->]; [left; right; exact In1 | right; reflexivity].
      * intros Hf. rewrite (F Hf). reflexivity.
Qed.

Lemma writes_first (dev : visa_device) (cmd : string) (cmds : list string) (h : trace) :
  exists tr, snd (writes dev (cmd :: cmds) h) = (h ++ DevWrite cmd :: tr)%list.
Proof.
  cbn [writes].
  destruct (write_events_start cmd (error_reply dev cmd h)) as [rest [E _]].
  destruct (error_reply dev cmd h) as [|c r].
  - cbn [snd]. rewrite E. eexists. reflexivity.
  - destruct (writes_trace dev cmds (h ++ write_events cmd (String c r))%list)
      as [tr [T _]].
    rewrite T, E, <- app_assoc. eexists. reflexivity.
Qed.

Lemma written_trace (dev : visa_device) (cmd : string) (h : trace) :
  exists tr,
    snd (written dev cmd h) = (h ++ tr)%list
    /\ unchecked_writes tr = []
    /\ sent tr = [cmd; "SYST:ERR?"].
Proof.
  exists (write_events cmd (error_reply dev cmd h)).
  split; [reflexivity|].
  split; [apply unchecked_write_events | apply sent_write_events].
Qed.

(** The default converter logs nothing. *)
Lemma converter_f_silent (tokens : list string) (h : trace) :
  snd (mapM Device.converter_f tokens h) = h.
Proof.
  revert h. induction tokens as [|t tokens IH]; intros h; [reflexivity|].
  cbn [mapM]. unfold bind at 1. unfold Device.converter_f at 1.
  destruct (PyFloat.of_string t); [|reflexivity].
  unfold ret at 1. unfold bind at 1.
  specialize (IH h). destruct (mapM Device.converter_f tokens h) as [[ys|e] h'];
    cbn in IH |- *; exact IH.
Qed.

(** A scalar query sends its command and nothing else. *)
Lemma scalar_query_trace (dev : visa_device) (cmd : string) (h : trace) :
  snd ((values <- Device.query_ascii_values dev cmd Device.converter_f ;; first values) h)
  = (h ++ [DevQueryAscii cmd])%list.
Proof.
  unfold bind, Device.query_ascii_values.
  pose proof (converter_f_silent (ascii_reply dev h cmd) (h ++ [DevQueryAscii cmd])%list) as S.
  destruct (mapM Device.converter_f _ _) as [[ys|e] h']; cbn in S |- *; subst h'.
  - destruct ys; reflexivity.
  - reflexivity.
Qed.

Lemma warnings_silent (tokens : list string) :
  unchecked_writes (warnings tokens) = [] /\ has_error_query (warnings tokens) = false
  /\ sent (warnings tokens) = [].
Proof.
  induction tokens as [|t tokens [U [Q S]]]; [repeat split|].
  cbn [warnings]. destruct (sample_of t); cbn; auto.
Qed.

(** ** The commands of the oscilloscope's setters and of the queries *)

Lemma channel_scale_set_run (dev : visa_device) (channel : Z) (v : pyval) (h : trace) :
  Rigol1054Z.channel_scale_set dev channel v h
  = written dev (":CHAN" ++ PyStr.of_Z channel ++ ":SCAL " ++ Py.str v) h.
Proof.
  rewrite <- write_then_none. unfold Rigol1054Z.channel_scale_set.
  rewrite bind_lift.
  replace (Py.format ":CHAN{}:SCAL {}" [PyInt channel; v])
    with (Ok (":CHAN" ++ PyStr.of_Z channel ++ ":SCAL " ++ Py.str v)); [reflexivity|].
  unfold Py.format. cbn. rewrite append_empty. reflexivity.
Qed.

Lemma channel_offset_set_run (dev : visa_device) (channel : Z) (v : pyval) (h : trace) :
  Rigol1054Z.channel_offset_set dev channel v h
  = written dev (":CHAN" ++ PyStr.of_Z channel ++ ":OFFS " ++ Py.str v) h.
Proof.
  rewrite <- write_then_none. unfold Rigol1054Z.channel_offset_set.
  rewrite bind_lift.
  replace (Py.format ":CHAN{}:OFFS {}" [PyInt channel; v])
    with (Ok (":CHAN" ++ PyStr.of_Z channel ++ ":OFFS " ++ Py.str v)); [reflexivity|].
  unfold Py.format. cbn. rewrite append_empty. reflexivity.
Qed.

Lemma timescale_run (dev : visa_device) (v : pyval) (h : trace) :
  Rigol1054Z.timescale dev v h = written dev (":TIM:SCAL " ++ Py.str v) h.
Proof.
  rewrite <- write_then_none. unfold Rigol1054Z.timescale.
  rewrite bind_lift.
  replace (Py.format ":TIM:SCAL {}" [v]) with (Ok (":TIM:SCAL " ++ Py.str v));
    [reflexivity|].
  unfold Py.format. cbn. rewrite append_empty. reflexivity.
Qed.

Lemma trigger_offset_run (dev : visa_device) (v : pyval) (h : trace) :
  Rigol1054Z.trigger_offset dev v h = written dev (":TIM:OFFS " ++ Py.str v) h.
Proof.
  rewrite <- write_then_none. unfold Rigol1054Z.trigger_offset.
  rewrite bind_lift.
  replace (Py.format ":TIM:OFFS {}" [v]) with (Ok (":TIM:OFFS " ++ Py.str v));
    [reflexivity|].
  unfold Py.format. cbn. rewrite append_empty. reflexivity.
Qed.

Lemma channel_scale_get_trace (dev : visa_device) (channel : Z) (h : trace) :
  snd (Rigol1054Z.channel_scale_get dev channel h)
  = (h ++ [DevQueryAscii (":CHAN" ++ PyStr.of_Z channel ++ ":SCAL?")])%list.
Proof.
  unfold Rigol1054Z.channel_scale_get. rewrite bind_lift.
  change (Py.format ":CHAN{}:SCAL?" [PyInt channel])
    with (Ok (A:=string) (":CHAN" ++ PyStr.of_Z channel ++ ":SCAL?")).
  apply scalar_query_trace.
Qed.

Lemma measure_voltage_trace (dev : visa_device) (channel : Z) (dc : bool) (h : trace) :
  snd (RigolDP832.measure_voltage dev channel dc h)
  = (h ++ [DevQueryAscii (":MEAS:VOLT" ++ mode dc ++ "? CH" ++ PyStr.of_Z channel)])%list.
Proof.
  unfold RigolDP832.measure_voltage. rewrite bind_lift.
  replace (Py.format ":MEAS:VOLT{}? CH{}" [PyStr (if dc then RigolDP832.dc_command else EmptyString); PyInt channel])
    with (Ok (":MEAS:VOLT" ++ mode dc ++ "? CH" ++ PyStr.of_Z channel)).
  - apply scalar_query_trace.
  - unfold Py.format. destruct dc; cbn; rewrite append_empty; reflexivity.
Qed.

Lemma measure_current_trace (dev : visa_device) (channel : Z) (dc : bool) (h : trace) :
  snd (RigolDP832.measure_current dev channel dc h)
  = (h ++ [DevQueryAscii (":MEAS:CURR" ++ mode dc ++ "? CH" ++ PyStr.of_Z channel)])%list.
Proof.
  unfold RigolDP832.measure_current. rewrite bind_lift.
  replace (Py.format ":MEAS:CURR{}? CH{}" [PyStr (if dc then RigolDP832.dc_command else EmptyString); PyInt channel])
    with (Ok (":MEAS:CURR" ++ mode dc ++ "? CH" ++ PyStr.of_Z channel)).
  - apply scalar_query_trace.
  - unfold Py.format. destruct dc; cbn; rewrite append_empty; reflexivity.
Qed.

Lemma measure_power_trace (dev : visa_device) (channel : Z) (dc : bool) (h : trace) :
  snd (RigolDP832.measure_power dev channel dc h)
  = (h ++ [DevQueryAscii (":MEAS:ALL" ++ mode dc ++ "? CH" ++ PyStr.of_Z channel)])%list.
Proof.
  unfold RigolDP832.measure_power. rewrite bind_lift.
  replace (Py.format ":MEAS:ALL{}? CH{}" [PyStr (if dc then RigolDP832.dc_command else EmptyString); PyInt channel])
    with (Ok (":MEAS:ALL" ++ mode dc ++ "? CH" ++ PyStr.of_Z channel)).
  - apply scalar_query_trace.
  - unfold Py.format. destruct dc; cbn; rewrite append_empty; reflexivity.
Qed.

Lemma trigger_edge_config_trace (dev : visa_device) (channel : Z) (level : pyval)
    (trig_type coupling slope : string) (h : trace) :
  exists e tr,
    Rigol1054Z.trigger_edge_config dev channel level trig_type coupling slope h
    = (Raise e, (h ++ tr)%list)
    /\ unchecked_writes tr = []
    /\ forall m, In m (sent tr) -> PyStr.starts_with ":TRIG:EDGE:LEV" m = false.
Proof.
  rewrite trigger_edge_config_run. cbv zeta.
  assert (Stop : forall e, exists e' tr,
             (Raise (A:=pyval) e, h) = (Raise e', (h ++ tr)%list)
             /\ unchecked_writes tr = []
             /\ forall m, In m (sent tr) -> PyStr.starts_with ":TRIG:EDGE:LEV" m = false).
  { intros e. exists e, []. rewrite app_nil_r. repeat split. contradiction. }
  destruct (negb _ && negb _); [apply Stop|].
  destruct (getitem _ (PyStr.lower (PyStr.strip slope))) as [slope'|e]; [|apply Stop].
  destruct (getitem _ (PyStr.lower (PyStr.strip trig_type))) as [trig'|e]; [|apply Stop].
  destruct (writes_trace dev
              (edge_commands channel trig' (PyStr.upper (PyStr.strip coupling)) slope') h)
    as [tr [T [U [S _]]]].
  destruct (writes dev _ h) as [ok h']. cbn [snd] in T. subst h'.
  assert (L : forall m, In m (sent tr) -> PyStr.starts_with ":TRIG:EDGE:LEV" m = false).
  { intros m Hm. destruct (S m Hm) as [C | ->]; [|reflexivity].
    unfold edge_commands in C.
    destruct C as [<- | [<- | [<- | [<- | []]]]]; reflexivity. }
  destruct ok; eexists; exists tr; (split; [reflexivity|]); split; assumption.
Qed.

(** ** The edge trigger, unchecked writes and unvalidated channels *)

(** C3 (the code departs from the claim).  [trigger_edge_config] never
    sends a level command: whatever its arguments, it ends with an
    exception, and nothing it sent starts with [:TRIG:EDGE:LEV].  With a
    numeric level, accepted coupling, slope and trigger type, and every
    command acknowledged, the four configuration commands are sent and the
    level line then raises [AttributeError], its template [{.5f}] asking
    for the attribute [5f] of the float; so does
    [trigger_edge_config(1, level=0.5, slope="rising")]. *)
Theorem trigger_edge_config_sends_no_level :
  (forall dev channel level trig_type coupling slope h,
     exists e tr,
       Rigol1054Z.trigger_edge_config dev channel level trig_type coupling slope h
       = (Raise e, (h ++ tr)%list)
       /\ forall m, In m (sent tr) -> PyStr.starts_with ":TRIG:EDGE:LEV" m = false)
  /\ (forall reply tokens channel level h,
        numeric level = true ->
        reply <> EmptyString ->
        exists tr,
          Rigol1054Z.trigger_edge_config (constant_device reply tokens) channel level
            Rigol1054Z.default_trig_type Rigol1054Z.default_coupling "rising" h
          = (Raise (AttributeError "float" "5f"), (h ++ tr)%list)
          /\ sent tr = [":TRIG:EDGE:SOUR CHAN" ++ PyStr.of_Z channel; "SYST:ERR?";
                        ":TRIG:EDGE:SWE SING"; "SYST:ERR?";
                        ":TRIG:EDGE:COUP DC"; "SYST:ERR?";
                        ":TRIG:EDGE:SLOP POS"; "SYST:ERR?"])
  /\ Rigol1054Z.trigger_edge_config (constant_device no_error_reply []) 1
       (PyFloat (Fin false 5 (-1)))
       Rigol1054Z.default_trig_type Rigol1054Z.default_coupling "rising" []
     = (Raise (AttributeError "float" "5f"),
        (write_events ":TRIG:EDGE:SOUR CHAN1" no_error_reply
         ++ write_events ":TRIG:EDGE:SWE SING" no_error_reply
         ++ write_events ":TRIG:EDGE:COUP DC" no_error_reply
         ++ write_events ":TRIG:EDGE:SLOP POS" no_error_reply)%list).
Proof.
  split; [|split].
  - intros. destruct (trigger_edge_config_trace dev channel level trig_type coupling slope h)
      as [e [tr [E [_ L]]]].
    exists e, tr. split; assumption.
  - intros reply tokens channel level h N R.
    rewrite trigger_edge_config_run. cbv zeta.
    change (PyStr.upper (PyStr.strip Rigol1054Z.default_coupling)) with "DC".
    change (PyStr.lower (PyStr.strip "rising")) with "rising".
    change (PyStr.lower (PyStr.strip Rigol1054Z.default_trig_type)) with "single".
    cbn [String.eqb Ascii.eqb Bool.eqb negb andb getitem].
    unfold edge_commands, writes, error_reply. cbn [constant_device ask_reply].
    destruct reply as [|c r]; [contradiction|].
    replace (Py.float level) with (Ok (A:=pyfloat)
      match level with PyInt z => PyFloat.of_Z z | PyFloat f => f | _ => NaN end)
      by (destruct level; try discriminate; reflexivity).
    eexists. rewrite <- !app_assoc. split; [reflexivity|].
    rewrite !sent_app, !sent_write_events. reflexivity.
  - reflexivity.
Qed.

(** The theorem at the level 0.5 and an instrument that acknowledges every
    command. *)
Lemma trigger_edge_config_sends_no_level_witness :
  exists tr,
    Rigol1054Z.trigger_edge_config (constant_device no_error_reply []) 1
      (PyFloat (Fin false 5 (-1)))
      Rigol1054Z.default_trig_type Rigol1054Z.default_coupling "rising" []
    = (Raise (AttributeError "float" "5f"), ([] ++ tr)%list)
    /\ sent tr = [":TRIG:EDGE:SOUR CHAN" ++ PyStr.of_Z 1; "SYST:ERR?";
                  ":TRIG:EDGE:SWE SING"; "SYST:ERR?";
                  ":TRIG:EDGE:COUP DC"; "SYST:ERR?";
                  ":TRIG:EDGE:SLOP POS"; "SYST:ERR?"].
Proof.
  apply (proj1 (proj2 trigger_edge_config_sends_no_level)
           no_error_reply [] 1 (PyFloat (Fin false 5 (-1))) []).
  - reflexivity.
  - discriminate.
Defined.

(** C4 (the code departs from the claim).  [get_samples] writes
    [:WAV:POIN:MODE RAW] straight to the session: when its first command
    was acknowledged, that write is followed by the waveform query and by
    no error query.  Every other operation of the two instruments leaves
    no write unchecked. *)
Theorem get_samples_leaves_write_unchecked :
  (forall dev op h,
     exists tr,
       perform dev op h = (h ++ tr)%list
       /\ unchecked_writes tr =
          match op with
          | ScopeGetSamples _ =>
              if String.eqb (error_reply dev ":WAV:FORM ASCII" h) EmptyString
              then [] else [":WAV:POIN:MODE RAW"]
          | _ => []
          end)
  /\ (forall tokens channel,
        unchecked_writes
          (perform (constant_device no_error_reply tokens) (ScopeGetSamples channel) [])
        = [":WAV:POIN:MODE RAW"])
  /\ perform (constant_device no_error_reply ["1.23"]) (ScopeGetSamples 1) []
     = (write_events ":WAV:FORM ASCII" no_error_reply
        ++ [DevWrite ":WAV:POIN:MODE RAW"; DevQueryAscii ":WAV:DATA? CHAN1"])%list.
Proof.
  assert (G : forall dev channel h,
             exists tr,
               snd (Rigol1054Z.get_samples dev channel h) = (h ++ tr)%list
               /\ unchecked_writes tr =
                  if String.eqb (error_reply dev ":WAV:FORM ASCII" h) EmptyString
                  then [] else [":WAV:POIN:MODE RAW"]).
  { intros. rewrite get_samples_run.
    destruct (error_reply dev ":WAV:FORM ASCII" h) as [|c r].
    - eexists. split; [reflexivity|]. reflexivity.
    - eexists. split; [reflexivity|].
      rewrite unchecked_after_write. cbn.
      destruct (warnings_silent (waveform_tokens dev h)) as [U [Q _]].
      rewrite Q, U. reflexivity. }
  assert (W : forall dev cmd h,
             exists tr, snd (written dev cmd h) = (h ++ tr)%list /\ unchecked_writes tr = []).
  { intros. destruct (written_trace dev cmd h) as [tr [T [U _]]]. eauto. }
  assert (Q : forall h cmd,
             exists tr, (h ++ [DevQueryAscii cmd])%list = (h ++ tr)%list
                        /\ unchecked_writes tr = []).
  { intros. eexists. split; reflexivity. }
  assert (V : forall (h : trace) (b : bool) (r : result pyval * trace),
             (exists tr, snd r = (h ++ tr)%list /\ unchecked_writes tr = []) ->
             exists tr,
               snd (if b then (Raise (RuntimeError "Invalid channel!"), h) else r)
               = (h ++ tr)%list /\ unchecked_writes tr = []).
  { intros h b r H. destruct b; [|exact H].
    exists []. rewrite app_nil_r. split; reflexivity. }
  split; [|split].
  - intros dev op h. destruct op; cbn [perform].
    + rewrite write_run. cbn [snd]. eexists. split; [reflexivity|].
      apply unchecked_write_events.
    + rewrite reset_run. destruct (error_reply dev "*RST" h).
      * eexists. split; [reflexivity|]. reflexivity.
      * eexists. split; [reflexivity|].
        rewrite unchecked_after_write. reflexivity.
    + exists [DevClose]. split; reflexivity.
    + rewrite psu_turn_off_run. apply V, W.
    + rewrite psu_turn_on_run. apply V, W.
    + rewrite measure_voltage_trace. apply Q.
    + rewrite measure_current_trace. apply Q.
    + rewrite measure_power_trace. apply Q.
    + rewrite scope_turn_on_run. apply V, W.
    + rewrite scope_turn_off_run. apply V, W.
    + rewrite channel_scale_set_run. apply W.
    + rewrite channel_scale_get_trace. apply Q.
    + rewrite channel_offset_set_run. apply W.
    + unfold Rigol1054Z.channel_offset_get. rewrite scalar_query_trace. apply Q.
    + rewrite timescale_run. apply W.
    + rewrite trigger_offset_run. apply W.
    + unfold Rigol1054Z.capture_start. rewrite write_then_none. apply W.
    + unfold Rigol1054Z.capture_stop. rewrite write_then_none. apply W.
    + destruct (trigger_edge_config_trace dev channel level trig_type coupling slope h)
        as [e [tr [E [U _]]]].
      exists tr. rewrite E. split; [reflexivity | exact U].
    + apply G.
    + unfold Rigol1054Z.samplerate_get. rewrite scalar_query_trace. apply Q.
  - intros tokens channel. cbn [perform].
    destruct (G (constant_device no_error_reply tokens) channel []) as [tr [T U]].
    rewrite T. exact U.
  - reflexivity.
Qed.

(** C6 (the code departs from the claim).  Only [turn_on] and [turn_off]
    check the channel.  The scale and offset setters, the scale getter,
    the edge-trigger configuration and the supply's measurements format
    whatever channel they are given into their first command and send it:
    [channel_scale_set(7, 0.5)] writes [:CHAN7:SCAL 0.5]. *)
Theorem unvalidated_channel_is_sent :
  (forall dev channel v dc h,
     Rigol1054Z.channel_scale_set dev channel v h
     = written dev (":CHAN" ++ PyStr.of_Z channel ++ ":SCAL " ++ Py.str v) h
     /\ Rigol1054Z.channel_offset_set dev channel v h
        = written dev (":CHAN" ++ PyStr.of_Z channel ++ ":OFFS " ++ Py.str v) h
     /\ snd (Rigol1054Z.channel_scale_get dev channel h)
        = (h ++ [DevQueryAscii (":CHAN" ++ PyStr.of_Z channel ++ ":SCAL?")])%list
     /\ (exists tr,
           snd (Rigol1054Z.trigger_edge_config dev channel v Rigol1054Z.default_trig_type
                  Rigol1054Z.default_coupling Rigol1054Z.default_slope h)
           = (h ++ DevWrite (":TRIG:EDGE:SOUR CHAN" ++ PyStr.of_Z channel) :: tr)%list)
     /\ snd (RigolDP832.measure_voltage dev channel dc h)
        = (h ++ [DevQueryAscii (":MEAS:VOLT" ++ mode dc ++ "? CH" ++ PyStr.of_Z channel)])%list
     /\ snd (RigolDP832.measure_current dev channel dc h)
        = (h ++ [DevQueryAscii (":MEAS:CURR" ++ mode dc ++ "? CH" ++ PyStr.of_Z channel)])%list
     /\ snd (RigolDP832.measure_power dev channel dc h)
        = (h ++ [DevQueryAscii (":MEAS:ALL" ++ mode dc ++ "? CH" ++ PyStr.of_Z channel)])%list)
  /\ Rigol1054Z.channel_scale_set (constant_device no_error_reply []) 7
       (PyFloat (Fin false 5 (-1))) []
     = (Ok PyNone, write_events ":CHAN7:SCAL 0.5" no_error_reply)
  /\ sent (snd (Rigol1054Z.channel_scale_set (constant_device no_error_reply []) 7
                  (PyFloat (Fin false 5 (-1))) []))
     = [":CHAN7:SCAL 0.5"; "SYST:ERR?"]
  /\ sent (snd (RigolDP832.measure_voltage (constant_device no_error_reply ["1.0"]) 0 false []))
     = [":MEAS:VOLT? CH0"].
Proof.
  split; [|repeat split].
  intros dev channel v dc h.
  split; [apply channel_scale_set_run|].
  split; [apply channel_offset_set_run|].
  split; [apply channel_scale_get_trace|].
  split; [|split; [apply measure_voltage_trace|];
           split; [apply measure_current_trace | apply measure_power_trace]].
  rewrite trigger_edge_config_run. cbv zeta.
  change (PyStr.upper (PyStr.strip Rigol1054Z.default_coupling)) with "DC".
  change (PyStr.lower (PyStr.strip Rigol1054Z.default_slope)) with "falling".
  change (PyStr.lower (PyStr.strip Rigol1054Z.default_trig_type)) with "single".
  cbn [String.eqb Ascii.eqb Bool.eqb negb andb getitem].
  unfold edge_commands.
  match goal with
  | |- context [writes dev (?cmd :: ?cmds) h] =>
      destruct (writes_first dev cmd cmds h) as [tr T];
      destruct (writes dev (cmd :: cmds) h) as [ok h']
  end.
  cbn [snd] in T. subst h'. exists tr. destruct ok; reflexivity.
Qed.

(** C7.  [get_samples] does nothing with its channel argument: two calls
    that differ only in the channel are the same call, none raises the
    invalid-channel error, and the only waveform query sent is the one for
    channel 1, which is sent whenever the call returns. *)
Theorem get_samples_ignores_channel :
  forall dev c1 c2 h,
    Rigol1054Z.get_samples dev c1 h = Rigol1054Z.get_samples dev c2 h
    /\ fst (Rigol1054Z.get_samples dev c1 h) <> Raise (RuntimeError "Invalid channel!")
    /\ exists tr,
         snd (Rigol1054Z.get_samples dev c1 h) = (h ++ tr)%list
         /\ (forall m, In (DevQueryAscii m) tr -> m = ":WAV:DATA? CHAN1")
         /\ match fst (Rigol1054Z.get_samples dev c1 h) with
            | Ok data =>
                data = List.map entry_of (waveform_tokens dev h)
                /\ sent tr = [":WAV:FORM ASCII"; "SYST:ERR?"; ":WAV:POIN:MODE RAW";
                              ":WAV:DATA? CHAN1"]
            | Raise e =>
                e = IndexError /\ error_reply dev ":WAV:FORM ASCII" h = EmptyString
            end.
Proof.
  intros dev c1 c2 h. split; [reflexivity|].
  rewrite get_samples_run.
  destruct (error_reply dev ":WAV:FORM ASCII" h) as [|c r].
  - split; [discriminate|]. eexists. split; [reflexivity|].
    split; [|split; reflexivity].
    intros m Hm. cbn in Hm. repeat destruct Hm as [Hm | Hm]; try discriminate Hm.
    contradiction.
  - split; [discriminate|]. eexists. split; [reflexivity|].
    cbn [fst]. split; [|split; [reflexivity|]].
    + intros m Hm. apply in_app_or in Hm. destruct Hm as [Hm | Hm].
      * cbn in Hm. repeat destruct Hm as [Hm | Hm]; try discriminate Hm.
        contradiction.
      * cbn in Hm. destruct Hm as [Hm | [Hm | Hm]]; try discriminate Hm.
        { injection Hm as <-. reflexivity. }
        exfalso. induction (waveform_tokens dev h) as [|t ts IH]; [exact Hm|].
        cbn [warnings] in Hm. destruct (sample_of t); [exact (IH Hm)|].
        destruct Hm as [Hm | Hm]; [discriminate Hm | exact (IH Hm)].
    + rewrite !sent_app, sent_write_events.
      destruct (warnings_silent (waveform_tokens dev h)) as [_ [_ S]].
      cbn. rewrite S. reflexivity.
Qed.

(** * Further properties *)

(** ** Discovery and the constructors *)

Lemma collect_usb_filter (resources acc : list string) :
  Constructors.collect_usb resources acc
  = (acc ++ filter (contains "USB") resources)%list.
Proof.
  revert acc. induction resources as [|dev rest IH]; intros acc.
  - cbn. rewrite app_nil_r. reflexivity.
  - cbn [Constructors.collect_usb filter]. rewrite IH.
    destruct (contains "USB" dev); [|reflexivity].
    rewrite <- app_assoc. reflexivity.
Qed.

Lemma find_filter {A} (p q : A -> bool) (l : list A) :
  find p (filter q l) = find (fun x => q x && p x) l.
Proof.
  induction l as [|x l IH]; [reflexivity|].
  cbn [filter find]. destruct (q x); cbn [andb find]; rewrite IH; reflexivity.
Qed.

Lemma connected_format (name text : string) :
  Py.format "Connected device! {} as {}" [PyStr name; PyStr text]
  = Ok ("Connected device! " ++ name ++ " as " ++ text).
Proof. unfold Py.format. cbn. rewrite append_empty. reflexivity. Qed.


Lemma dp832_scan_run (bus : visa_bus) (self : instrument) (devs : list string) (h : trace) :
  Constructors.RigolDP832_scan bus self devs h =
  match find (contains "DP8") devs with
  | Some name =>
      (Ok (true, {| usb_devices := usb_devices self;
                    device := Some (open_resource bus name);
                    device_name := Some name |}),
       (h ++ [connected_line bus name])%list)
  | None => (Ok (false, self), h)
  end.
Proof.
  induction devs as [|dev rest IH]; [reflexivity|].
  cbn [Constructors.RigolDP832_scan find].
  destruct (contains "DP8" dev); [|exact IH].
  rewrite bind_lift, connected_format. reflexivity.
Qed.

Lemma ds1054z_scan_run (bus : visa_bus) (self : instrument) (devs : list string) (h : trace) :
  Constructors.Rigol1054Z_scan bus self devs h =
  match find (contains "DS1Z") devs with
  | Some name =>
      (Ok (true, {| usb_devices := usb_devices self;
                    device := Some (open_resource bus name);
                    device_name := Some name |}),
       (h ++ [connected_line bus name])%list)
  | None => (Ok (false, self), h)
  end.
Proof.
  induction devs as [|dev rest IH]; [reflexivity|].
  cbn [Constructors.Rigol1054Z_scan find].
  destruct (contains "DS1Z" dev); [|exact IH].
  rewrite bind_lift, connected_format. reflexivity.
Qed.

Lemma dp832_init_run (bus : visa_bus) (h : trace) :
  Constructors.RigolDP832_init bus h =
  match list_resources bus with
  | None =>
      (Raise (AttributeError "RigolDP832" "usb_devices"),
       (h ++ [Print "Pyvisa is not able to find the connections"])%list)
  | Some resources =>
      match find (usb_with "DP8") resources with
      | Some name => (Ok (connected bus resources name), (h ++ [connected_line bus name])%list)
      | None => (Raise (RuntimeError "Failed to find a DP832!"), h)
      end
  end.
Proof.
  unfold Constructors.RigolDP832_init, Constructors.BaseVisaDevice_init.
  destruct (list_resources bus) as [resources|]; [|reflexivity].
  unfold bind at 1, ret at 1. cbn [usb_devices Constructors.get_usb_devices].
  unfold bind at 1, ret at 1. unfold bind at 1.
  rewrite dp832_scan_run, collect_usb_filter. cbn [app].
  rewrite find_filter. fold (usb_with "DP8").
  destruct (find (usb_with "DP8") resources); reflexivity.
Qed.

Lemma ds1054z_init_run (bus : visa_bus) (h : trace) :
  Constructors.Rigol1054Z_init bus h =
  match list_resources bus with
  | None =>
      (Raise (AttributeError "Rigol1054Z" "usb_devices"),
       (h ++ [Print "Pyvisa is not able to find the connections"])%list)
  | Some resources =>
      match find (usb_with "DS1Z") resources with
      | Some name => (Ok (connected bus resources name), (h ++ [connected_line bus name])%list)
      | None => (Raise (RuntimeError "Failed to find a DS1054Z!"), h)
      end
  end.
Proof.
  unfold Constructors.Rigol1054Z_init, Constructors.BaseVisaDevice_init.
  destruct (list_resources bus) as [resources|]; [|reflexivity].
  unfold bind at 1, ret at 1. cbn [usb_devices Constructors.get_usb_devices].
  unfold bind at 1, ret at 1. unfold bind at 1.
  rewrite ds1054z_scan_run, collect_usb_filter. cbn [app].
  rewrite find_filter. fold (usb_with "DS1Z").
  destruct (find (usb_with "DS1Z") resources); reflexivity.
Qed.

Lemma find_first {A} (p : A -> bool) (pre : list A) (x : A) (post : list A) :
  p x = true -> (forall y, In y pre -> p y = false) ->
  find p (pre ++ x :: post) = Some x.
Proof.
  intros Px Pre. induction pre as [|y pre IH]; cbn.
  - rewrite Px. reflexivity.
  - rewrite (Pre y (or_introl eq_refl)). apply IH.
    intros z Hz. apply Pre. right. exact Hz.
Qed.

Lemma find_nothing {A} (p : A -> bool) (l : list A) :
  (forall y, In y l -> p y = false) -> find p l = None.
Proof.
  intros N. induction l as [|y l IH]; [reflexivity|].
  cbn. rewrite (N y (or_introl eq_refl)). apply IH.
  intros z Hz. apply N. right. exact Hz.
Qed.

(** X2.  [RigolDP832()] opens the first name of the bus, in the order of
    the bus, that holds both [USB] and [DP8], prints one line and binds the
    object to that session.  When no name holds both, a DP832 reachable
    otherwise included, it raises the not-found error and prints nothing;
    an object it returns is always bound to such a name.  When the bus
    fails it raises [AttributeError] for [usb_devices], after the line of
    the base constructor. *)
Theorem dp832_init_opens_first_usb_match :
  forall bus h,
    match list_resources bus with
    | Some resources =>
        (forall pre name post,
           resources = (pre ++ name :: post)%list ->
           usb_with "DP8" name = true ->
           (forall other, In other pre -> usb_with "DP8" other = false) ->
           Constructors.RigolDP832_init bus h
           = (Ok (connected bus resources name), (h ++ [connected_line bus name])%list))
        /\ ((forall other, In other resources -> usb_with "DP8" other = false) ->
            Constructors.RigolDP832_init bus h
            = (Raise (RuntimeError "Failed to find a DP832!"), h))
        /\ (forall self tr,
              Constructors.RigolDP832_init bus h = (Ok self, tr) ->
              exists name,
                In name resources /\ contains "USB" name = true
                /\ contains "DP8" name = true
                /\ device_name self = Some name
                /\ device self = Some (open_resource bus name))
    | None =>
        Constructors.RigolDP832_init bus h
        = (Raise (AttributeError "RigolDP832" "usb_devices"),
           (h ++ [Print "Pyvisa is not able to find the connections"])%list)
    end.
Proof.
  intros bus h. rewrite dp832_init_run.
  destruct (list_resources bus) as [resources|]; [|reflexivity].
  split; [|split].
  - intros pre name post -> Hn Hpre. rewrite (find_first _ pre name post Hn Hpre).
    reflexivity.
  - intros Hnone. rewrite (find_nothing _ resources Hnone). reflexivity.
  - intros self tr E. destruct (find (usb_with "DP8") resources) as [name|] eqn:F;
      [|discriminate E].
    injection E as <- _. apply find_some in F. destruct F as [Hin Hp].
    apply andb_prop in Hp. destruct Hp as [Hu Hd].
    exists name. repeat split; assumption.
Qed.

(** The theorem on a bus with a network DP832 first and a USB one after
    it. *)
Lemma dp832_init_opens_first_usb_match_witness :
  Constructors.RigolDP832_init
    (constant_bus (Some ["TCPIP0::DP832"; "USB0::DP8C"; "USB1::DP8D"])
       (constant_device no_error_reply [])) []
  = (Ok (connected (constant_bus (Some ["TCPIP0::DP832"; "USB0::DP8C"; "USB1::DP8D"])
                      (constant_device no_error_reply []))
           ["TCPIP0::DP832"; "USB0::DP8C"; "USB1::DP8D"] "USB0::DP8C"),
     [Print "Connected device! USB0::DP8C as <USB0::DP8C>"]).
Proof.
  apply (proj1 (dp832_init_opens_first_usb_match
                  (constant_bus (Some ["TCPIP0::DP832"; "USB0::DP8C"; "USB1::DP8D"])
                     (constant_device no_error_reply [])) [])
           ["TCPIP0::DP832"] "USB0::DP8C" ["USB1::DP8D"]).
  - reflexivity.
  - reflexivity.
  - intros other [<- | []]. reflexivity.
Defined.

(** X3.  [Rigol1054Z()] behaves alike with the mark [DS1Z]: it opens the
    first name holding both [USB] and [DS1Z], raises the not-found error
    when there is none, and raises [AttributeError] when the bus fails. *)
Theorem ds1054z_init_opens_first_usb_match :
  forall bus h,
    match list_resources bus with
    | Some resources =>
        (forall pre name post,
           resources = (pre ++ name :: post)%list ->
           usb_with "DS1Z" name = true ->
           (forall other, In other pre -> usb_with "DS1Z" other = false) ->
           Constructors.Rigol1054Z_init bus h
           = (Ok (connected bus resources name), (h ++ [connected_line bus name])%list))
        /\ ((forall other, In other resources -> usb_with "DS1Z" other = false) ->
            Constructors.Rigol1054Z_init bus h
            = (Raise (RuntimeError "Failed to find a DS1054Z!"), h))
        /\ (forall self tr,
              Constructors.Rigol1054Z_init bus h = (Ok self, tr) ->
              exists name,
                In name resources /\ contains "USB" name = true
                /\ contains "DS1Z" name = true
                /\ device_name self = Some name
                /\ device self = Some (open_resource bus name))
    | None =>
        Constructors.Rigol1054Z_init bus h
        = (Raise (AttributeError "Rigol1054Z" "usb_devices"),
           (h ++ [Print "Pyvisa is not able to find the connections"])%list)
    end.
Proof.
  intros bus h. rewrite ds1054z_init_run.
  destruct (list_resources bus) as [resources|]; [|reflexivity].
  split; [|split].
  - intros pre name post -> Hn Hpre. rewrite (find_first _ pre name post Hn Hpre).
    reflexivity.
  - intros Hnone. rewrite (find_nothing _ resources Hnone). reflexivity.
  - intros self tr E. destruct (find (usb_with "DS1Z") resources) as [name|] eqn:F;
      [|discriminate E].
    injection E as <- _. apply find_some in F. destruct F as [Hin Hp].
    apply andb_prop in Hp. destruct Hp as [Hu Hd].
    exists name. repeat split; assumption.
Qed.

(** The theorem on a bus that lists only a supply. *)
Lemma ds1054z_init_opens_first_usb_match_witness :
  Constructors.Rigol1054Z_init
    (constant_bus (Some ["USB0::DP8C"]) (constant_device no_error_reply [])) []
  = (Raise (RuntimeError "Failed to find a DS1054Z!"), []).
Proof.
  apply (proj1 (proj2 (ds1054z_init_opens_first_usb_match
                         (constant_bus (Some ["USB0::DP8C"])
                            (constant_device no_error_reply [])) []))).
  intros other [<- | []]. reflexivity.
Defined.

(** ** The script *)

Lemma print_each_run (vals : list pyval) (h : trace) :
  Constructors.print_each vals h
  = (Ok tt, (h ++ List.map (fun v => Print (Py.str v)) vals)%list).
Proof.
  revert h. induction vals as [|v vals IH]; intros h.
  - cbn. rewrite app_nil_r. reflexivity.
  - cbn [Constructors.print_each List.map]. unfold bind, print, emit.
    rewrite IH, <- app_assoc. reflexivity.
Qed.

Lemma main_run (bus : visa_bus) (h : trace) :
  Constructors.main bus h =
  match list_resources bus with
  | None =>
      (Raise (AttributeError "Rigol1054Z" "usb_devices"),
       (h ++ [Print "Pyvisa is not able to find the connections"])%list)
  | Some resources =>
      match find (usb_with "DS1Z") resources with
      | None => (Raise (RuntimeError "Failed to find a DS1054Z!"), h)
      | Some name =>
          let h1 := (h ++ [connected_line bus name])%list in
          (fst (script_events (open_resource bus name) h1),
           (h1 ++ snd (script_events (open_resource bus name) h1))%list)
      end
  end.
Proof.
  unfold Constructors.main, Constructors.with_as.
  unfold bind at 1. rewrite ds1054z_init_run.
  destruct (list_resources bus) as [resources|]; [|reflexivity].
  destruct (find (usb_with "DS1Z") resources) as [name|]; [|reflexivity].
  cbv zeta. unfold bind at 1, Constructors.enter, ret at 1.
  unfold connected, Constructors.exit, Constructors.get_device. cbn [device].
  unfold bind at 1, ret at 1.
  unfold Rigol1054Z.capture_stop.
  set (dev := open_resource bus name). set (h1 := (h ++ [connected_line bus name])%list).
  unfold script_events.
  unfold bind at 1. rewrite write_then_none. unfold written.
  destruct (error_reply dev ":STOP" h1) as [|c r].
  - unfold BaseVisaDevice.close_instrument, Device.close, bind, emit, ret. cbn.
    rewrite <- !app_assoc. reflexivity.
  - unfold bind at 1, ret at 1. unfold bind at 1.
    rewrite get_samples_run.
    destruct (error_reply dev ":WAV:FORM ASCII" _) as [|c2 r2].
    + unfold BaseVisaDevice.close_instrument, Device.close, bind, emit, ret. cbn.
      rewrite <- !app_assoc. reflexivity.
    + rewrite print_each_run.
      unfold BaseVisaDevice.close_instrument, Device.close, bind, emit, ret.
      cbn [fst snd]. rewrite List.map_map, <- !app_assoc. reflexivity.
Qed.







Lemma printed_app (tr1 tr2 : trace) :
  printed (tr1 ++ tr2)%list = (printed tr1 ++ printed tr2)%list.
Proof.
  induction tr1 as [|e tr1 IH]; [reflexivity|].
  destruct e; cbn; rewrite IH; reflexivity.
Qed.

Lemma printed_warnings (tokens : list string) :
  printed (warnings tokens) = repeat "WARNING: Dropped packet!" (malformed_count tokens).
Proof.
  unfold malformed_count.
  induction tokens as [|t tokens IH]; [reflexivity|].
  cbn [warnings filter]. destruct (sample_of t); cbn; rewrite IH; reflexivity.
Qed.

Lemma printed_prints {A} (f : A -> string) (l : list A) :
  printed (List.map (fun x => Print (f x)) l) = List.map f l.
Proof. induction l as [|x l IH]; [reflexivity | cbn; rewrite IH; reflexivity]. Qed.

Lemma sent_prints {A} (f : A -> string) (l : list A) :
  sent (List.map (fun x => Print (f x)) l) = [].
Proof. induction l as [|x l IH]; [reflexivity | exact IH]. Qed.

(** X5.  When the oscilloscope [name] is found and both of its checked
    commands are acknowledged, the script returns, having sent the stop
    command, the format command, the raw-mode command and the one waveform
    query, and having printed, after the connection line and the two log
    lines, first one warning per malformed token and then one line per
    token: the value of a well-formed token, the text [None] for a
    malformed one. *)
Theorem main_prints_one_line_per_token :
  forall bus h resources name,
    list_resources bus = Some resources ->
    find (usb_with "DS1Z") resources = Some name ->
    let dev := open_resource bus name in
    let h1 := (h ++ [connected_line bus name])%list in
    let h2 := (h1 ++ write_events ":STOP" (error_reply dev ":STOP" h1))%list in
    error_reply dev ":STOP" h1 <> EmptyString ->
    error_reply dev ":WAV:FORM ASCII" h2 <> EmptyString ->
    exists tr,
      Constructors.main bus h = (Ok tt, (h ++ tr)%list)
      /\ sent tr = [":STOP"; "SYST:ERR?"; ":WAV:FORM ASCII"; "SYST:ERR?";
                    ":WAV:POIN:MODE RAW"; ":WAV:DATA? CHAN1"]
      /\ printed tr
         = ([("Connected device! " ++ name ++ " as " ++ resource_text bus name)%string;
             "`:STOP` recieved. No error occured";
             "`:WAV:FORM ASCII` recieved. No error occured"]
            ++ repeat "WARNING: Dropped packet!" (malformed_count (waveform_tokens dev h2))
            ++ List.map (fun t => Py.str (entry_of t)) (waveform_tokens dev h2))%list.
Proof.
  intros bus h resources name L F dev h1 h2 R1 R2.
  rewrite main_run, L, F. cbv zeta. fold dev. fold h1.
  unfold script_events. subst h2.
  destruct (error_reply dev ":STOP" h1) as [|c r]; [contradiction|].
  cbv zeta.
  destruct (error_reply dev ":WAV:FORM ASCII" _) as [|c2 r2]; [contradiction|].
  cbn [fst snd]. subst h1. rewrite <- app_assoc.
  eexists. split; [reflexivity|].
  destruct (warnings_silent
              (waveform_tokens dev
                 ((h ++ [connected_line bus name]) ++ write_events ":STOP" (String c r))%list))
    as [_ [_ S]].
  split.
  - rewrite !sent_app, !sent_write_events, S, sent_prints. reflexivity.
  - rewrite !printed_app, printed_warnings, printed_prints.
    change (printed [DevClose]) with (@nil string). rewrite app_nil_r. reflexivity.
Qed.

(** The theorem on a bus with one oscilloscope that acknowledges every
    command and returns three value strings. *)
Lemma main_prints_one_line_per_token_witness :
  exists tr,
    Constructors.main
      (constant_bus (Some ["USB0::DS1ZA"]) (constant_device no_error_reply ["1.5"; "x"; "2"]))
      [] = (Ok tt, ([] ++ tr)%list)
    /\ sent tr = [":STOP"; "SYST:ERR?"; ":WAV:FORM ASCII"; "SYST:ERR?";
                  ":WAV:POIN:MODE RAW"; ":WAV:DATA? CHAN1"]
    /\ printed tr
       = ["Connected device! USB0::DS1ZA as <USB0::DS1ZA>";
          "`:STOP` recieved. No error occured";
          "`:WAV:FORM ASCII` recieved. No error occured";
          "WARNING: Dropped packet!"; "1.5"; "None"; "2.0"].
Proof.
  apply (main_prints_one_line_per_token
           (constant_bus (Some ["USB0::DS1ZA"])
              (constant_device no_error_reply ["1.5"; "x"; "2"]))
           [] ["USB0::DS1ZA"] "USB0::DS1ZA").
  - reflexivity.
  - reflexivity.
  - discriminate.
  - discriminate.
Defined.

(** ** The text arguments of the edge trigger *)

Lemma to_upper_idem (c : ascii) : PyStr.to_upper (PyStr.to_upper c) = PyStr.to_upper c.
Proof. destruct c as [[] [] [] [] [] [] [] []]; reflexivity. Qed.

Lemma to_lower_idem (c : ascii) : PyStr.to_lower (PyStr.to_lower c) = PyStr.to_lower c.
Proof. destruct c as [[] [] [] [] [] [] [] []]; reflexivity. Qed.

Lemma space_to_upper (c : ascii) : PyStr.is_space (PyStr.to_upper c) = PyStr.is_space c.
Proof. destruct c as [[] [] [] [] [] [] [] []]; reflexivity. Qed.

Lemma space_to_lower (c : ascii) : PyStr.is_space (PyStr.to_lower c) = PyStr.is_space c.
Proof. destruct c as [[] [] [] [] [] [] [] []]; reflexivity. Qed.

Section Strip.

Variable f : ascii -> ascii.
Hypothesis f_idem : forall c, f (f c) = f c.
Hypothesis f_space : forall c, PyStr.is_space (f c) = PyStr.is_space c.

Lemma map_idem (s : string) : PyStr.map f (PyStr.map f s) = PyStr.map f s.
Proof. induction s as [|c s IH]; cbn; [|rewrite f_idem, IH]; reflexivity. Qed.

Lemma lstrip_map (s : string) : PyStr.lstrip (PyStr.map f s) = PyStr.map f (PyStr.lstrip s).
Proof.
  induction s as [|c s IH]; [reflexivity|].
  cbn. rewrite f_space. destruct (PyStr.is_space c); [exact IH | reflexivity].
Qed.

Lemma rstrip_map (s : string) : PyStr.rstrip (PyStr.map f s) = PyStr.map f (PyStr.rstrip s).
Proof.
  induction s as [|c s IH]; [reflexivity|].
  cbn. rewrite IH, f_space.
  destruct (PyStr.rstrip s); cbn; [destruct (PyStr.is_space c)|]; reflexivity.
Qed.

Lemma strip_map (s : string) : PyStr.strip (PyStr.map f s) = PyStr.map f (PyStr.strip s).
Proof. unfold PyStr.strip. rewrite lstrip_map, rstrip_map. reflexivity. Qed.

End Strip.

Lemma lstrip_head (s : string) : head_kept (PyStr.lstrip s) = true.
Proof.
  induction s as [|c s IH]; [reflexivity|].
  cbn. destruct (PyStr.is_space c) eqn:E; [exact IH|]. cbn. rewrite E. reflexivity.
Qed.

Lemma lstrip_kept (s : string) : head_kept s = true -> PyStr.lstrip s = s.
Proof.
  destruct s as [|c s]; [reflexivity|]. cbn.
  destruct (PyStr.is_space c); [discriminate | reflexivity].
Qed.

Lemma rstrip_head (s : string) : head_kept s = true -> head_kept (PyStr.rstrip s) = true.
Proof.
  destruct s as [|c s]; [reflexivity|]. cbn. intros H.
  destruct (PyStr.rstrip s); [|exact H].
  destruct (PyStr.is_space c) eqn:E; [discriminate|]. cbn. rewrite E. reflexivity.
Qed.

Lemma rstrip_idem (s : string) : PyStr.rstrip (PyStr.rstrip s) = PyStr.rstrip s.
Proof.
  induction s as [|c s IH]; [reflexivity|].
  cbn. destruct (PyStr.rstrip s) as [|d r] eqn:E.
  - destruct (PyStr.is_space c) eqn:Sp; [reflexivity|]. cbn. rewrite Sp. reflexivity.
  - change (PyStr.rstrip (String c (String d r)))
      with (match PyStr.rstrip (String d r) with
            | EmptyString =>
                if PyStr.is_space c then EmptyString else String c EmptyString
            | String _ _ as r' => String c r'
            end).
    rewrite IH. reflexivity.
Qed.

Lemma strip_idem (s : string) : PyStr.strip (PyStr.strip s) = PyStr.strip s.
Proof.
  unfold PyStr.strip.
  rewrite (lstrip_kept (PyStr.rstrip (PyStr.lstrip s)))
    by (apply rstrip_head, lstrip_head).
  apply rstrip_idem.
Qed.

Lemma upper_strip_idem (s : string) :
  PyStr.upper (PyStr.strip (PyStr.upper (PyStr.strip s))) = PyStr.upper (PyStr.strip s).
Proof.
  unfold PyStr.upper.
  rewrite (strip_map PyStr.to_upper space_to_upper), strip_idem.
  apply (map_idem PyStr.to_upper to_upper_idem).
Qed.

Lemma lower_strip_idem (s : string) :
  PyStr.lower (PyStr.strip (PyStr.lower (PyStr.strip s))) = PyStr.lower (PyStr.strip s).
Proof.
  unfold PyStr.lower.
  rewrite (strip_map PyStr.to_lower space_to_lower), strip_idem.
  apply (map_idem PyStr.to_lower to_lower_idem).
Qed.

(** X6.  [trigger_edge_config] reads its three text arguments only up to
    surrounding whitespace and letter case: two calls whose trigger type,
    coupling and slope agree once stripped and case-folded are the same
    call, and every call is the call on its stripped and case-folded
    arguments. *)
Theorem trigger_edge_config_reads_normalised_text :
  (forall dev channel level t1 c1 s1 t2 c2 s2 h,
     PyStr.lower (PyStr.strip t1) = PyStr.lower (PyStr.strip t2) ->
     PyStr.upper (PyStr.strip c1) = PyStr.upper (PyStr.strip c2) ->
     PyStr.lower (PyStr.strip s1) = PyStr.lower (PyStr.strip s2) ->
     Rigol1054Z.trigger_edge_config dev channel level t1 c1 s1 h
     = Rigol1054Z.trigger_edge_config dev channel level t2 c2 s2 h)
  /\ (forall dev channel level t c s h,
        Rigol1054Z.trigger_edge_config dev channel level t c s h
        = Rigol1054Z.trigger_edge_config dev channel level
            (PyStr.lower (PyStr.strip t)) (PyStr.upper (PyStr.strip c))
            (PyStr.lower (PyStr.strip s)) h).
Proof.
  assert (A : forall dev channel level t1 c1 s1 t2 c2 s2 h,
             PyStr.lower (PyStr.strip t1) = PyStr.lower (PyStr.strip t2) ->
             PyStr.upper (PyStr.strip c1) = PyStr.upper (PyStr.strip c2) ->
             PyStr.lower (PyStr.strip s1) = PyStr.lower (PyStr.strip s2) ->
             Rigol1054Z.trigger_edge_config dev channel level t1 c1 s1 h
             = Rigol1054Z.trigger_edge_config dev channel level t2 c2 s2 h).
  { intros dev channel level t1 c1 s1 t2 c2 s2 h T C S.
    rewrite !trigger_edge_config_run. cbv zeta. rewrite T, C, S. reflexivity. }
  split; [exact A|].
  intros. apply A; symmetry;
    [apply lower_strip_idem | apply upper_strip_idem | apply lower_strip_idem].
Qed.

(** The theorem on a padded, mixed-case spelling of the defaults. *)
Lemma trigger_edge_config_reads_normalised_text_witness :
  Rigol1054Z.trigger_edge_config (constant_device no_error_reply []) 2 (PyInt 1)
    " Single" " dc " "RISING " []
  = Rigol1054Z.trigger_edge_config (constant_device no_error_reply []) 2 (PyInt 1)
      "single" "DC" "rising" [].
Proof.
  apply (proj1 trigger_edge_config_reads_normalised_text
           (constant_device no_error_reply []) 2 (PyInt 1)
           " Single" " dc " "RISING " "single" "DC" "rising" []);
    reflexivity.
Defined.

Lemma ne_eqb (a b : string) : a <> b -> String.eqb a b = false.
Proof. intros N. apply String.eqb_neq. exact N. Qed.

(** X7.  [trigger_edge_config] checks its text arguments before it sends
    anything, the coupling first, then the slope, then the trigger type.
    A coupling other than DC or AC raises the invalid-coupling
    [RuntimeError]; an unknown slope or trigger type raises, not that
    error, but the [KeyError] of the failed lookup, carrying the stripped
    and lower-cased text.  In all three cases the trace is left as it was;
    with three accepted arguments the source command is sent. *)
Theorem trigger_edge_config_checks_text_first :
  forall dev channel level trig_type coupling slope h,
    let coupling' := PyStr.upper (PyStr.strip coupling) in
    let slope' := PyStr.lower (PyStr.strip slope) in
    let trig_type' := PyStr.lower (PyStr.strip trig_type) in
    let run := Rigol1054Z.trigger_edge_config dev channel level trig_type coupling slope h in
    (coupling' <> "DC" /\ coupling' <> "AC" ->
     run = (Raise (RuntimeError "Invalid coupling type!"), h))
    /\ (coupling' = "DC" \/ coupling' = "AC" ->
        slope' <> "falling" /\ slope' <> "rising" ->
        run = (Raise (KeyError slope'), h))
    /\ (coupling' = "DC" \/ coupling' = "AC" ->
        slope' = "falling" \/ slope' = "rising" ->
        trig_type' <> "single" ->
        run = (Raise (KeyError trig_type'), h))
    /\ (coupling' = "DC" \/ coupling' = "AC" ->
        slope' = "falling" \/ slope' = "rising" ->
        trig_type' = "single" ->
        exists tr,
          snd run = (h ++ DevWrite (":TRIG:EDGE:SOUR CHAN" ++ PyStr.of_Z channel) :: tr)%list).
Proof.
  intros dev channel level trig_type coupling slope h coupling' slope' trig_type' run.
  subst run. rewrite trigger_edge_config_run. cbv zeta.
  fold coupling'. fold slope'. fold trig_type'.
  assert (CO : coupling' = "DC" \/ coupling' = "AC" ->
               negb (String.eqb coupling' "DC") && negb (String.eqb coupling' "AC") = false).
  { intros [E | E]; rewrite E; reflexivity. }
  assert (SO : slope' = "falling" \/ slope' = "rising" ->
               exists code,
                 getitem [("falling", "NEG"); ("rising", "POS")] slope' = Ok code).
  { intros [E | E]; rewrite E; eexists; reflexivity. }
  split; [|split; [|split]].
  - intros [N1 N2]. rewrite (ne_eqb _ _ N1), (ne_eqb _ _ N2). reflexivity.
  - intros C [N1 N2]. rewrite (CO C). cbn [getitem].
    rewrite (ne_eqb "falling" slope'), (ne_eqb "rising" slope') by congruence.
    reflexivity.
  - intros C S N. rewrite (CO C). destruct (SO S) as [code ->].
    cbn [getitem]. rewrite (ne_eqb "single" trig_type') by congruence. reflexivity.
  - intros C S T. rewrite (CO C). destruct (SO S) as [code ->].
    rewrite T. cbn [getitem String.eqb Ascii.eqb Bool.eqb]. unfold edge_commands.
    match goal with
    | |- context [writes dev (?cmd :: ?cmds) h] =>
        destruct (writes_first dev cmd cmds h) as [tr W];
        destruct (writes dev (cmd :: cmds) h) as [ok h']
    end.
    cbn [snd] in W. subst h'. exists tr. destruct ok; reflexivity.
Qed.

(** The theorem on a coupling that is refused, a slope that is unknown and
    a trigger type that is unknown. *)
Lemma trigger_edge_config_checks_text_first_witness :
  Rigol1054Z.trigger_edge_config (constant_device no_error_reply []) 1 (PyInt 1)
    "normal" "GND" "up" []
  = (Raise (RuntimeError "Invalid coupling type!"), [])
  /\ Rigol1054Z.trigger_edge_config (constant_device no_error_reply []) 1 (PyInt 1)
       "normal" "ac" " Up" []
     = (Raise (KeyError "up"), [])
  /\ Rigol1054Z.trigger_edge_config (constant_device no_error_reply []) 1 (PyInt 1)
       "Normal" "ac" "falling" []
     = (Raise (KeyError "normal"), []).
Proof.
  split; [|split].
  - apply (proj1 (trigger_edge_config_checks_text_first
                    (constant_device no_error_reply []) 1 (PyInt 1) "normal" "GND" "up" [])).
    split; discriminate.
  - apply (proj1 (proj2 (trigger_edge_config_checks_text_first
                    (constant_device no_error_reply []) 1 (PyInt 1) "normal" "ac" " Up" []))).
    + right. reflexivity.
    + split; discriminate.
  - apply (proj1 (proj2 (proj2 (trigger_edge_config_checks_text_first
                    (constant_device no_error_reply []) 1 (PyInt 1)
                    "Normal" "ac" "falling" [])))).
    + right. reflexivity.
    + left. reflexivity.
    + discriminate.
Defined.

Lemma writes_acknowledged (dev : visa_device) (cmds : list string) (h : trace) :
  (forall cmd h', error_reply dev cmd h' <> EmptyString) ->
  fst (writes dev cmds h) = true.
Proof.
  intros A. revert h. induction cmds as [|cmd cmds IH]; intros h; [reflexivity|].
  cbn [writes]. destruct (error_reply dev cmd h) eqn:E.
  - exfalso. exact (A cmd h E).
  - apply IH.
Qed.

(** X8.  [trigger_edge_config] looks at the level last.  With accepted
    text arguments and an instrument that answers every error query, the
    four configuration commands have been sent, with the case-folded
    coupling and the code of the slope, before the level is converted: a
    level that [float] refuses raises its [ValueError] or [TypeError] only
    then, and a level it accepts meets the [AttributeError] of the level
    line. *)
Theorem trigger_edge_config_reads_level_last :
  forall dev channel level trig_type coupling slope h,
    let coupling' := PyStr.upper (PyStr.strip coupling) in
    let slope' := PyStr.lower (PyStr.strip slope) in
    (forall cmd h', error_reply dev cmd h' <> EmptyString) ->
    coupling' = "DC" \/ coupling' = "AC" ->
    slope' = "falling" \/ slope' = "rising" ->
    PyStr.lower (PyStr.strip trig_type) = "single" ->
    exists tr,
      Rigol1054Z.trigger_edge_config dev channel level trig_type coupling slope h
      = (Raise match Py.float level with
               | Ok _ => AttributeError "float" "5f"
               | Raise e => e
               end, (h ++ tr)%list)
      /\ sent tr = [":TRIG:EDGE:SOUR CHAN" ++ PyStr.of_Z channel; "SYST:ERR?";
                    ":TRIG:EDGE:SWE SING"; "SYST:ERR?";
                    ":TRIG:EDGE:COUP " ++ coupling'; "SYST:ERR?";
                    ":TRIG:EDGE:SLOP " ++ (if String.eqb slope' "falling" then "NEG" else "POS");
                    "SYST:ERR?"].
Proof.
  intros dev channel level trig_type coupling slope h coupling' slope' A C S T.
  rewrite trigger_edge_config_run. cbv zeta. fold coupling'. fold slope'. rewrite T.
  replace (negb (String.eqb coupling' "DC") && negb (String.eqb coupling' "AC"))
    with false by (destruct C as [E | E]; rewrite E; reflexivity).
  replace (getitem [("falling", "NEG"); ("rising", "POS")] slope')
    with (Ok (if String.eqb slope' "falling" then "NEG" else "POS"))
    by (destruct S as [E | E]; rewrite E; reflexivity).
  cbn [getitem String.eqb Ascii.eqb Bool.eqb].
  match goal with
  | |- context [writes dev ?cmds h] =>
      pose proof (writes_acknowledged dev cmds h A) as Ok4;
      destruct (writes_trace dev cmds h) as [tr [W [_ [_ F]]]];
      destruct (writes dev cmds h) as [ok h']
  end.
  cbn [fst snd] in Ok4, W, F. subst ok h'.
  exists tr. split; [reflexivity|]. rewrite (F eq_refl). reflexivity.
Qed.

(** The theorem on a level that is no number. *)
Lemma trigger_edge_config_reads_level_last_witness :
  exists tr,
    Rigol1054Z.trigger_edge_config (constant_device no_error_reply []) 3 (PyStr "high")
      "single" "ac" "Falling" []
    = (Raise ValueError, ([] ++ tr)%list)
    /\ sent tr = [":TRIG:EDGE:SOUR CHAN3"; "SYST:ERR?"; ":TRIG:EDGE:SWE SING"; "SYST:ERR?";
                  ":TRIG:EDGE:COUP AC"; "SYST:ERR?"; ":TRIG:EDGE:SLOP NEG"; "SYST:ERR?"].
Proof.
  apply (trigger_edge_config_reads_level_last
           (constant_device no_error_reply []) 3 (PyStr "high") "single" "ac" "Falling" []).
  - discriminate.
  - right. reflexivity.
  - left. reflexivity.
  - reflexivity.
Defined.

(** ** Scalar queries *)

Lemma converter_f_run (tokens : list string) (h : trace) :
  mapM Device.converter_f tokens h =
  (match parse_all tokens with
   | Some fs => Ok (List.map PyFloat fs)
   | None => Raise ValueError
   end, h).
Proof.
  induction tokens as [|t tokens IH]; [reflexivity|].
  cbn [mapM parse_all]. unfold bind at 1. unfold Device.converter_f at 1.
  destruct (PyFloat.of_string t) as [f|]; [|reflexivity].
  unfold ret at 1. unfold bind at 1. rewrite IH.
  destruct (parse_all tokens); reflexivity.
Qed.

Lemma scalar_query_run (dev : visa_device) (cmd : string) (h : trace) :
  (values <- Device.query_ascii_values dev cmd Device.converter_f ;; first values) h
  = (scalar_of (ascii_reply dev h cmd), (h ++ [DevQueryAscii cmd])%list).
Proof.
  unfold bind, Device.query_ascii_values, scalar_of. rewrite converter_f_run.
  destruct (parse_all (ascii_reply dev h cmd)) as [[|f fs]|]; reflexivity.
Qed.






(** X10.  The oscilloscope's getters are scalar queries of the same kind:
    [channel_scale_get] asks [:CHANn:SCAL?] for the channel as given,
    [samplerate_get] asks [:ACQ:SAMP?], and [channel_offset_get] asks
    [:WAV:YOR?] whatever its channel, not the offset the setter writes
    with [:CHANn:OFFS].  Each sends that one query and returns the first
    value of the reply, or raises as a measurement does. *)
Theorem scope_getters_are_scalar_queries :
  forall dev channel h,
    Rigol1054Z.channel_scale_get dev channel h
    = (scalar_of (ascii_reply dev h (":CHAN" ++ PyStr.of_Z channel ++ ":SCAL?")),
       (h ++ [DevQueryAscii (":CHAN" ++ PyStr.of_Z channel ++ ":SCAL?")])%list)
    /\ Rigol1054Z.channel_offset_get dev channel h
       = (scalar_of (ascii_reply dev h ":WAV:YOR?"), (h ++ [DevQueryAscii ":WAV:YOR?"])%list)
    /\ Rigol1054Z.samplerate_get dev h
       = (scalar_of (ascii_reply dev h ":ACQ:SAMP?"), (h ++ [DevQueryAscii ":ACQ:SAMP?"])%list)
    /\ (forall v, exists rest,
          snd (Rigol1054Z.channel_offset_set dev channel v h)
          = (h ++ DevWrite (":CHAN" ++ PyStr.of_Z channel ++ ":OFFS " ++ Py.str v) :: rest)%list).
Proof.
  intros dev channel h.
  unfold Rigol1054Z.channel_scale_get, Rigol1054Z.channel_offset_get,
    Rigol1054Z.samplerate_get.
  rewrite bind_lift.
  change (Py.format ":CHAN{}:SCAL?" [PyInt channel])
    with (Ok (A:=string) (":CHAN" ++ PyStr.of_Z channel ++ ":SCAL?")).
  rewrite !scalar_query_run. repeat split.
  intros v. rewrite channel_offset_set_run.
  destruct (written_starts dev (":CHAN" ++ PyStr.of_Z channel ++ ":OFFS " ++ Py.str v) h)
    as [rest [E _]].
  exists rest. exact E.
Qed.

(** ** Pauses *)

Lemma sleeps_app (tr1 tr2 : trace) :
  sleeps (tr1 ++ tr2)%list = (sleeps tr1 ++ sleeps tr2)%list.
Proof.
  induction tr1 as [|e tr1 IH]; [reflexivity|].
  destruct e; cbn; rewrite IH; reflexivity.
Qed.

Lemma error_queries_app (tr1 tr2 : trace) :
  error_queries (tr1 ++ tr2)%list = (error_queries tr1 + error_queries tr2)%nat.
Proof.
  induction tr1 as [|e tr1 IH]; [reflexivity|].
  destruct e; cbn; rewrite IH; try reflexivity.
  destruct (String.eqb message "SYST:ERR?"); reflexivity.
Qed.

Lemma paced_app (tr1 tr2 : trace) (n m : nat) :
  paced tr1 n -> paced tr2 m -> paced (tr1 ++ tr2)%list (n + m).
Proof.
  intros [S1 Q1] [S2 Q2]. split.
  - rewrite sleeps_app, S1, S2, repeat_app. reflexivity.
  - rewrite error_queries_app, Q1, Q2. reflexivity.
Qed.

Lemma paced_write_events (cmd reply : string) : paced (write_events cmd reply) 1.
Proof. unfold write_events. destruct reply; split; reflexivity. Qed.

Lemma paced_warnings (tokens : list string) : paced (warnings tokens) 0.
Proof.
  induction tokens as [|t tokens [S E]]; [split; reflexivity|].
  cbn [warnings]. destruct (sample_of t); split; assumption.
Qed.

Lemma paced_writes (dev : visa_device) (cmds : list string) (h : trace) :
  exists tr n,
    snd (writes dev cmds h) = (h ++ tr)%list /\ paced tr n /\ (n <= List.length cmds)%nat.
Proof.
  revert h. induction cmds as [|cmd cmds IH]; intros h.
  - exists [], O. cbn. rewrite app_nil_r. repeat split. lia.
  - cbn [writes]. destruct (error_reply dev cmd h) as [|c r].
    + exists (write_events cmd EmptyString), 1%nat. cbn [snd List.length].
      split; [reflexivity|]. split; [apply paced_write_events | lia].
    + destruct (IH (h ++ write_events cmd (String c r))%list) as [tr [n [T [P L]]]].
      exists (write_events cmd (String c r) ++ tr)%list, (1 + n)%nat.
      rewrite T, app_assoc. split; [reflexivity|].
      split; [apply paced_app; [apply paced_write_events | exact P]|].
      cbn [List.length]. lia.
Qed.

Lemma total_sleep_sleeps (tr : trace) :
  total_sleep tr = fold_right Qplus 0%Q (sleeps tr).
Proof.
  induction tr as [|e tr IH]; [reflexivity|].
  destruct e; cbn; rewrite <- IH; reflexivity.
Qed.

Lemma total_sleep_bound (tr : trace) (n : nat) (extra : list Q) :
  sleeps tr = (repeat (1 # 10) n ++ extra)%list ->
  (extra = [] /\ (n <= 4)%nat) \/ (extra = [2 # 10] /\ (n <= 1)%nat) ->
  (total_sleep tr <= 4 # 10)%Q.
Proof.
  intros S B. rewrite total_sleep_sleeps, S.
  destruct B as [[-> L] | [-> L]].
  - do 5 (destruct n as [|n]; [vm_compute; discriminate|]). lia.
  - do 2 (destruct n as [|n]; [vm_compute; discriminate|]). lia.
Qed.

(** X11.  Every operation pauses 0.1 s once for each error query it
    sends, and not otherwise; only [reset], once its command has been
    checked, adds its 0.2 s.  The queries send no error query and so never
    pause, [trigger_edge_config] sends at most four and every other
    operation at most one, so that no operation sleeps longer than
    0.4 s. *)
Theorem operations_pause_once_per_check :
  forall dev op h, exists tr n,
    perform dev op h = (h ++ tr)%list
    /\ error_queries tr = n
    /\ (n <= checked_bound op)%nat
    /\ sleeps tr = (repeat (1 # 10) n ++ settle dev op h)%list
    /\ (total_sleep tr <= 4 # 10)%Q.
Proof.
  intros dev op h.
  assert (K : forall tr n,
             perform dev op h = (h ++ tr)%list -> paced tr n ->
             (n <= checked_bound op)%nat -> settle dev op h = [] ->
             exists tr n,
               perform dev op h = (h ++ tr)%list
               /\ error_queries tr = n
               /\ (n <= checked_bound op)%nat
               /\ sleeps tr = (repeat (1 # 10) n ++ settle dev op h)%list
               /\ (total_sleep tr <= 4 # 10)%Q).
  { intros tr n E [S Q] L Z. exists tr, n.
    assert (S' : sleeps tr = (repeat (1 # 10) n ++ settle dev op h)%list)
      by (rewrite Z, app_nil_r; exact S).
    repeat split; try assumption.
    apply (total_sleep_bound tr n (settle dev op h) S').
    left. split; [exact Z|]. destruct op; cbn in L; lia. }
  assert (W : forall cmd, exists tr, snd (written dev cmd h) = (h ++ tr)%list /\ paced tr 1).
  { intros cmd. eexists. split; [reflexivity | apply paced_write_events]. }
  assert (V : forall (b : bool) cmd, exists tr n,
             snd (if b then (Raise (RuntimeError "Invalid channel!"), h)
                  else written dev cmd h) = (h ++ tr)%list
             /\ paced tr n /\ (n <= 1)%nat).
  { intros b cmd. destruct b.
    - exists [], O. rewrite app_nil_r. repeat split. lia.
    - eexists. exists 1%nat. split; [reflexivity|].
      split; [apply paced_write_events | lia]. }
  assert (Q0 : forall cmd, paced [DevQueryAscii cmd] 0) by (intros; split; reflexivity).
  destruct op.
  - apply (K (write_events message (error_reply dev message h)) 1%nat);
      [cbn [perform]; rewrite write_run; reflexivity
      | apply paced_write_events | cbn; lia | reflexivity].
  - cbn [perform]. rewrite reset_run. unfold settle.
    destruct (error_reply dev "*RST" h) as [|c r].
    + exists (write_events "*RST" EmptyString), 1%nat. cbn [snd String.eqb].
      split; [reflexivity|]. split; [reflexivity|]. split; [cbn; lia|].
      split; [reflexivity|]. vm_compute. discriminate.
    + exists (write_events "*RST" (String c r) ++ [Sleep (2 # 10)])%list, 1%nat.
      cbn [snd String.eqb]. split; [reflexivity|]. split; [reflexivity|].
      split; [cbn; lia|]. split; [reflexivity|]. vm_compute. discriminate.
  - apply (K [DevClose] O); [reflexivity | split; reflexivity | cbn; lia | reflexivity].
  - cbn [perform] in *. rewrite psu_turn_off_run in *.
    destruct (V ((channel <=? 0) || (channel >? 3))
                (":OUTP CH" ++ PyStr.of_Z channel ++ ",OFF")) as [tr [n [E [P L]]]].
    apply (K tr n); [exact E | exact P | cbn; lia | reflexivity].
  - cbn [perform] in *. rewrite psu_turn_on_run in *.
    destruct (V ((channel <=? 0) || (channel >? 3))
                (":OUTP CH" ++ PyStr.of_Z channel ++ ",ON")) as [tr [n [E [P L]]]].
    apply (K tr n); [exact E | exact P | cbn; lia | reflexivity].
  - cbn [perform] in *. rewrite measure_voltage_trace in *.
    eapply K; [reflexivity | apply Q0 | cbn; lia | reflexivity].
  - cbn [perform] in *. rewrite measure_current_trace in *.
    eapply K; [reflexivity | apply Q0 | cbn; lia | reflexivity].
  - cbn [perform] in *. rewrite measure_power_trace in *.
    eapply K; [reflexivity | apply Q0 | cbn; lia | reflexivity].
  - cbn [perform] in *. rewrite scope_turn_on_run in *.
    destruct (V ((channel <=? 0) || (channel >? 4))
                (":CHAN" ++ PyStr.of_Z channel ++ ":DISP ON")) as [tr [n [E [P L]]]].
    apply (K tr n); [exact E | exact P | cbn; lia | reflexivity].
  - cbn [perform] in *. rewrite scope_turn_off_run in *.
    destruct (V ((channel <=? 0) || (channel >? 4))
                (":CHAN" ++ PyStr.of_Z channel ++ ":DISP OFF")) as [tr [n [E [P L]]]].
    apply (K tr n); [exact E | exact P | cbn; lia | reflexivity].
  - cbn [perform] in *. rewrite channel_scale_set_run in *.
    eapply K; [reflexivity | apply paced_write_events | cbn; lia | reflexivity].
  - cbn [perform] in *. rewrite channel_scale_get_trace in *.
    eapply K; [reflexivity | apply Q0 | cbn; lia | reflexivity].
  - cbn [perform] in *. rewrite channel_offset_set_run in *.
    eapply K; [reflexivity | apply paced_write_events | cbn; lia | reflexivity].
  - cbn [perform] in *. unfold Rigol1054Z.channel_offset_get in *.
    rewrite scalar_query_trace in *.
    eapply K; [reflexivity | apply Q0 | cbn; lia | reflexivity].
  - cbn [perform] in *. rewrite timescale_run in *.
    eapply K; [reflexivity | apply paced_write_events | cbn; lia | reflexivity].
  - cbn [perform] in *. rewrite trigger_offset_run in *.
    eapply K; [reflexivity | apply paced_write_events | cbn; lia | reflexivity].
  - cbn [perform] in *. unfold Rigol1054Z.capture_start in *.
    rewrite write_then_none in *.
    eapply K; [reflexivity | apply paced_write_events | cbn; lia | reflexivity].
  - cbn [perform] in *. unfold Rigol1054Z.capture_stop in *.
    rewrite write_then_none in *.
    eapply K; [reflexivity | apply paced_write_events | cbn; lia | reflexivity].
  - cbn [perform] in *. rewrite trigger_edge_config_run in *. cbv zeta in *.
    assert (N : paced [] 0) by (split; reflexivity).
    destruct (negb _ && negb _);
      [apply (K [] O); [rewrite app_nil_r; reflexivity | exact N | cbn; lia | reflexivity]|].
    destruct (getitem _ (PyStr.lower (PyStr.strip slope))) as [slope'|e];
      [|apply (K [] O); [rewrite app_nil_r; reflexivity | exact N | cbn; lia | reflexivity]].
    destruct (getitem _ (PyStr.lower (PyStr.strip trig_type))) as [trig'|e];
      [|apply (K [] O); [rewrite app_nil_r; reflexivity | exact N | cbn; lia | reflexivity]].
    match goal with
    | |- context [writes dev ?cmds h] =>
        destruct (paced_writes dev cmds h) as [tr [n [T [P L]]]];
        destruct (writes dev cmds h) as [ok h']
    end.
    cbn [snd] in T. subst h'. cbn [List.length edge_commands] in L.
    apply (K tr n); [destruct ok; reflexivity | exact P | cbn; lia | reflexivity].
  - cbn [perform] in *. rewrite get_samples_run in *.
    destruct (error_reply dev ":WAV:FORM ASCII" h) as [|c r].
    + eapply K; [reflexivity | apply paced_write_events | cbn; lia | reflexivity].
    + eapply (K _ 1%nat); [reflexivity | | cbn; lia | reflexivity].
      apply (paced_app _ _ 1 0); [apply paced_write_events|].
      apply (paced_app [DevWrite ":WAV:POIN:MODE RAW"; DevQueryAscii ":WAV:DATA? CHAN1"]
               _ 0 0); [split; reflexivity | apply paced_warnings].
  - cbn [perform] in *. unfold Rigol1054Z.samplerate_get in *.
    rewrite scalar_query_trace in *.
    eapply K; [reflexivity | apply Q0 | cbn; lia | reflexivity].
Qed.

(** ** More on the waveform decoder *)

Lemma warning_count_app (tr1 tr2 : trace) :
  warning_count (tr1 ++ tr2)%list = (warning_count tr1 + warning_count tr2)%nat.
Proof.
  induction tr1 as [|e tr1 IH]; [reflexivity|].
  destruct e; cbn; rewrite IH; try reflexivity.
  destruct (String.eqb text "WARNING: Dropped packet!"); reflexivity.
Qed.

Lemma warning_count_write_events (cmd reply : string) :
  warning_count (write_events cmd reply) = O.
Proof. unfold write_events. destruct reply; reflexivity. Qed.

Lemma warning_count_warnings (tokens : list string) :
  warning_count (warnings tokens) = malformed_count tokens.
Proof.
  unfold malformed_count.
  induction tokens as [|t tokens IH]; [reflexivity|].
  cbn [warnings filter]. destruct (sample_of t); cbn; rewrite IH; reflexivity.
Qed.

Lemma entries_split (tokens : list string) :
  (none_count (List.map entry_of tokens)
   + List.length (samples (List.map entry_of tokens)))%nat
  = List.length (List.map entry_of tokens).
Proof.
  rewrite none_count_entries, samples_of_entries, length_map, (token_count tokens). lia.
Qed.

(** X12.  A [get_samples] whose format command is acknowledged prints one
    dropped-packet warning for each [None] of its result, neither more
    nor fewer, and every entry of the result is either a sample or
    [None]. *)
Theorem get_samples_warns_once_per_none :
  forall dev channel h,
    error_reply dev ":WAV:FORM ASCII" h <> EmptyString ->
    exists data tr,
      Rigol1054Z.get_samples dev channel h = (Ok data, (h ++ tr)%list)
      /\ warning_count tr = none_count data
      /\ (none_count data + List.length (samples data))%nat = List.length data.
Proof.
  intros dev channel h R. rewrite get_samples_run.
  destruct (error_reply dev ":WAV:FORM ASCII" h) as [|c r]; [contradiction|].
  eexists. eexists. split; [reflexivity|]. split; [|apply entries_split].
  rewrite !warning_count_app, warning_count_write_events, warning_count_warnings,
    none_count_entries.
  reflexivity.
Qed.

(** The theorem on the example stream: four warnings, four [None]s, one
    sample. *)
Lemma get_samples_warns_once_per_none_witness :
  exists data tr,
    Rigol1054Z.get_samples (constant_device no_error_reply example_tokens) 1 []
    = (Ok data, ([] ++ tr)%list)
    /\ warning_count tr = none_count data
    /\ (none_count data + List.length (samples data))%nat = List.length data.
Proof.
  apply (get_samples_warns_once_per_none
           (constant_device no_error_reply example_tokens) 1 []).
  discriminate.
Defined.

Lemma space_is_no_literal (c : ascii) :
  PyStr.is_space c = true ->
  Ascii.eqb c "#" = false
  /\ (PyFloat.is_c_space c = true
      \/ (PyFloat.is_c_space c = false /\ PyStr.is_digit c = false
          /\ Ascii.eqb c "-" = false /\ Ascii.eqb c "+" = false
          /\ Ascii.eqb c "." = false
          /\ Ascii.eqb "i" (PyStr.to_lower c) = false
          /\ Ascii.eqb "n" (PyStr.to_lower c) = false)).
Proof.
  destruct c as [[] [] [] [] [] [] [] []]; intros H; try discriminate H;
    (split; [reflexivity|]);
    first [left; reflexivity | right; repeat split; reflexivity].
Qed.

Lemma rstrip_empty (s : string) :
  PyStr.rstrip s = EmptyString -> head_kept s = true -> s = EmptyString.
Proof.
  destruct s as [|c s]; [reflexivity|]. cbn.
  destruct (PyStr.rstrip s); [|discriminate].
  destruct (PyStr.is_space c); discriminate.
Qed.

Lemma strip_empty (s : string) :
  PyStr.strip s = EmptyString -> PyStr.lstrip s = EmptyString.
Proof.
  unfold PyStr.strip. intros E. apply (rstrip_empty _ E), lstrip_head.
Qed.

(** [float] refuses a text made of whitespace, also of the separators it
    does not skip. *)
Lemma blank_refused (s : string) :
  PyStr.lstrip s = EmptyString -> PyFloat.of_string s = None.
Proof.
  induction s as [|c s IH]; [reflexivity|].
  cbn [PyStr.lstrip]. destruct (PyStr.is_space c) eqn:Sp; [|discriminate].
  intros L. destruct (space_is_no_literal c Sp) as [_ [Cs | [Cs [D [Mi [Pl [Dot [I N]]]]]]]].
  - unfold PyFloat.of_string. cbn [PyFloat.skip_spaces]. rewrite Cs. apply (IH L).
  - unfold PyFloat.of_string. cbn [PyFloat.skip_spaces]. rewrite Cs.
    cbn [PyFloat.sign]. rewrite Mi, Pl.
    unfold PyFloat.absfloatvalue.
    cbn [PyStr.lower PyStr.map PyStr.starts_with]. rewrite I, N. cbn [andb].
    unfold PyFloat.number, PyFloat.digitpart. rewrite D, Dot. reflexivity.
Qed.

Lemma blank_payload (token : string) :
  PyStr.strip token = EmptyString -> payload token = token.
Proof.
  intros B. apply strip_empty in B. destruct token as [|c r]; [reflexivity|].
  cbn [PyStr.lstrip] in B. unfold payload.
  destruct (PyStr.is_space c) eqn:Sp; [|discriminate B].
  destruct (space_is_no_literal c Sp) as [H _]. rewrite H. reflexivity.
Qed.

Lemma sample_of_payload (token : string) :
  sample_of token = PyFloat.of_string (payload token).
Proof.
  unfold sample_of. destruct (String.eqb (PyStr.strip token) EmptyString) eqn:E;
    [|reflexivity].
  apply String.eqb_eq in E. rewrite (blank_payload token E).
  symmetry. apply blank_refused, strip_empty, E.
Qed.

Lemma slice_from_app (a b : string) : PyStr.slice_from (String.length a) (a ++ b) = b.
Proof. induction a as [|c a IH]; [destruct b; reflexivity | exact IH]. Qed.

(** X13.  What [conv_string] returns is decided by [float] alone: a token
    gives the value [float] reads in it once a leading block header is cut
    off, and [None] when [float] refuses that text, so the test for a
    blank token never changes the result.  The header is the mark and the
    ten characters after it, whatever they are: a token made of the mark,
    ten characters and a text decodes as that text does. *)
Theorem conv_string_follows_float :
  (forall token h,
     fst (Rigol1054Z.conv_string token h)
     = Ok match PyFloat.of_string (payload token) with
          | Some f => PyFloat f
          | None => PyNone
          end)
  /\ (forall header body h,
        String.length header = 10%nat ->
        fst (Rigol1054Z.conv_string (String "#" (header ++ body)) h)
        = Ok match PyFloat.of_string body with
             | Some f => PyFloat f
             | None => PyNone
             end).
Proof.
  assert (A : forall token h,
             fst (Rigol1054Z.conv_string token h)
             = Ok match PyFloat.of_string (payload token) with
                  | Some f => PyFloat f
                  | None => PyNone
                  end).
  { intros token h. rewrite conv_string_run. cbn [fst]. unfold entry_of.
    rewrite sample_of_payload. reflexivity. }
  split; [exact A|].
  intros header body h L. rewrite A.
  replace (payload (String "#" (header ++ body))) with body; [reflexivity|].
  unfold payload. cbn [Ascii.eqb Bool.eqb].
  change (PyStr.slice_from 11 (String "#" (header ++ body)))
    with (PyStr.slice_from 10 (header ++ body)).
  rewrite <- L. symmetry. apply slice_from_app.
Qed.

(** The theorem on a value behind a header of eleven characters. *)
Lemma conv_string_follows_float_witness :
  fst (Rigol1054Z.conv_string (String "#" ("9000000012" ++ "-1.5e-2")) [])
  = Ok (PyFloat (Fin true 15 (-3))).
Proof.
  apply (proj2 conv_string_follows_float "9000000012" "-1.5e-2" []).
  reflexivity.
Defined.

(** *** Doubled exponent marks *)

Lemma contains_ee (s : string) : contains "ee" s = true -> (2 <= count_e s)%nat.
Proof.
  induction s as [|c s IH]; [discriminate|].
  cbn [contains]. intros H. apply orb_prop in H. destruct H as [H | H].
  - cbn [PyStr.starts_with] in H. destruct s as [|d s]; [rewrite andb_false_r in H; discriminate|].
    apply andb_prop in H. destruct H as [Hc H]. apply andb_prop in H. destruct H as [Hd _].
    apply Ascii.eqb_eq in Hc, Hd. subst c d. cbn. lia.
  - specialize (IH H). cbn [count_e]. lia.
Qed.

Lemma e_is_a_letter (c : ascii) :
  Ascii.eqb c "e" = true ->
  PyFloat.is_c_space c = false /\ PyStr.is_digit c = false
  /\ Ascii.eqb c "_" = false /\ Ascii.eqb c "." = false
  /\ Ascii.eqb c "-" = false /\ Ascii.eqb c "+" = false.
Proof. intros E. apply Ascii.eqb_eq in E. subst c. repeat split. Qed.

Lemma count_e_skip (c : ascii) (s : string) :
  PyFloat.is_c_space c = true \/ PyStr.is_digit c = true \/ Ascii.eqb c "_" = true
  \/ Ascii.eqb c "." = true \/ Ascii.eqb c "-" = true \/ Ascii.eqb c "+" = true ->
  count_e (String c s) = count_e s.
Proof.
  intros H. cbn [count_e]. destruct (Ascii.eqb c "e") eqn:E; [|reflexivity].
  destruct (e_is_a_letter c E) as [A [B [C [D [F G]]]]].
  destruct H as [H | [H | [H | [H | [H | H]]]]]; congruence.
Qed.

Lemma skip_spaces_e (s : string) : count_e (PyFloat.skip_spaces s) = count_e s.
Proof.
  induction s as [|c s IH]; [reflexivity|].
  cbn [PyFloat.skip_spaces]. destruct (PyFloat.is_c_space c) eqn:E; [|reflexivity].
  rewrite IH. symmetry. apply count_e_skip. left. exact E.
Qed.

Lemma at_end_e (s : string) : PyFloat.at_end s = true -> count_e s = O.
Proof.
  unfold PyFloat.at_end. intros H. rewrite <- skip_spaces_e.
  destruct (PyFloat.skip_spaces s); [reflexivity | discriminate].
Qed.

Lemma sign_e (s : string) : count_e (snd (PyFloat.sign s)) = count_e s.
Proof.
  destruct s as [|c s]; [reflexivity|]. cbn [PyFloat.sign].
  destruct (Ascii.eqb c "-") eqn:M.
  - cbn [snd]. symmetry. apply count_e_skip. auto 8.
  - destruct (Ascii.eqb c "+") eqn:P; [|reflexivity].
    cbn [snd]. symmetry. apply count_e_skip. auto 8.
Qed.

Lemma digits_tail_e (fuel : nat) :
  forall s acc n,
    (String.length s <= fuel)%nat ->
    count_e (snd (PyFloat.digits_tail acc n s)) = count_e s.
Proof.
  induction fuel as [|fuel IH]; intros s acc n L.
  - destruct s; [reflexivity | cbn in L; lia].
  - destruct s as [|c s]; [reflexivity|]. cbn [PyFloat.digits_tail].
    destruct (PyStr.is_digit c) eqn:D.
    + rewrite IH by (cbn in L; lia). symmetry. apply count_e_skip. auto 8.
    + destruct (Ascii.eqb c "_") eqn:U; [|reflexivity].
      destruct s as [|d s]; [reflexivity|].
      destruct (PyStr.is_digit d) eqn:D2; [|reflexivity].
      rewrite IH by (cbn in L; lia).
      rewrite (count_e_skip c) by auto 8. rewrite (count_e_skip d) by auto 8.
      reflexivity.
Qed.

Lemma digitpart_e (acc : Z) (s : string) (m k : Z) (r : string) :
  PyFloat.digitpart acc s = Some (m, k, r) -> count_e r = count_e s.
Proof.
  unfold PyFloat.digitpart. destruct s as [|c s]; [discriminate|].
  destruct (PyStr.is_digit c) eqn:D; [|discriminate].
  pose proof (digits_tail_e (String.length s) s (10 * acc + PyStr.digit_value c) 1
                (le_n _)) as T.
  destruct (PyFloat.digits_tail (10 * acc + PyStr.digit_value c) 1 s) as [[m' k'] r'].
  cbn [snd] in T. intros H. injection H as _ _ <-.
  rewrite (count_e_skip c) by auto 8. exact T.
Qed.

Lemma number_e (s : string) (m k : Z) (r : string) :
  PyFloat.number s = Some (m, k, r) -> count_e r = count_e s.
Proof.
  unfold PyFloat.number.
  destruct (PyFloat.digitpart 0 s) as [[[m0 k0] r0]|] eqn:D0.
  - apply digitpart_e in D0. destruct r0 as [|c r0].
    + intros H. injection H as _ _ <-. exact D0.
    + destruct (Ascii.eqb c ".") eqn:Dot.
      * rewrite (count_e_skip c) in D0 by auto 8.
        destruct (PyFloat.digitpart m0 r0) as [[[m1 k1] r1]|] eqn:D1.
        -- apply digitpart_e in D1. intros H. injection H as _ _ <-. congruence.
        -- intros H. injection H as _ _ <-. exact D0.
      * intros H. injection H as _ _ <-. exact D0.
  - destruct s as [|c s]; [discriminate|].
    destruct (Ascii.eqb c ".") eqn:Dot; [|discriminate].
    destruct (PyFloat.digitpart 0 s) as [[[m1 k1] r1]|] eqn:D1; [|discriminate].
    apply digitpart_e in D1. intros H. injection H as _ _ <-.
    rewrite (count_e_skip c) by auto 8. exact D1.
Qed.

Lemma exponent_e (s : string) (e : Z) (r : string) :
  PyFloat.exponent_part s = Some (e, r) -> (count_e s <= 1 + count_e r)%nat.
Proof.
  unfold PyFloat.exponent_part. destruct s as [|c s].
  - intros H. injection H as _ <-. cbn. lia.
  - destruct (Ascii.eqb (PyStr.to_lower c) "e").
    + pose proof (sign_e s) as Sg. destruct (PyFloat.sign s) as [neg r1]. cbn [snd] in Sg.
      destruct (PyFloat.digitpart 0 r1) as [[[m k] r2]|] eqn:D; [|discriminate].
      apply digitpart_e in D. intros H. injection H as _ <-.
      cbn [count_e]. destruct (Ascii.eqb c "e"); lia.
    + intros H. injection H as _ <-. lia.
Qed.

Lemma prefix_e (p : string) :
  forall s,
    PyStr.starts_with p (PyStr.lower s) = true -> count_e p = O ->
    count_e s = count_e (PyStr.slice_from (String.length p) s).
Proof.
  induction p as [|a p IH]; intros s H Z0; [destruct s; reflexivity|].
  destruct s as [|b s]; [discriminate H|].
  cbn [PyStr.lower PyStr.map PyStr.starts_with] in H.
  apply andb_prop in H. destruct H as [Hab H].
  cbn [count_e] in Z0. destruct (Ascii.eqb a "e") eqn:Ea; [discriminate Z0|].
  cbn [String.length PyStr.slice_from count_e].
  rewrite <- (IH s H Z0).
  destruct (Ascii.eqb b "e") eqn:Eb; [|reflexivity].
  apply Ascii.eqb_eq in Eb, Hab. subst b. cbn in Hab. subst a. discriminate Ea.
Qed.

(** A text [float] accepts holds at most one lower-case exponent mark. *)
Lemma accepted_has_one_e (s : string) (f : pyfloat) :
  PyFloat.of_string s = Some f -> (count_e s <= 1)%nat.
Proof.
  unfold PyFloat.of_string. rewrite <- (skip_spaces_e s).
  pose proof (sign_e (PyFloat.skip_spaces s)) as Sg.
  destruct (PyFloat.sign (PyFloat.skip_spaces s)) as [neg r]. cbn [snd] in Sg.
  rewrite <- Sg. clear Sg. unfold PyFloat.absfloatvalue.
  destruct (PyStr.starts_with "infinity" (PyStr.lower r) && PyFloat.at_end (PyStr.slice_from 8 r))
    eqn:I8.
  { intros _. apply andb_prop in I8. destruct I8 as [P E].
    rewrite (prefix_e "infinity" r P eq_refl). cbn [String.length].
    rewrite (at_end_e _ E). lia. }
  destruct (PyStr.starts_with "inf" (PyStr.lower r) && PyFloat.at_end (PyStr.slice_from 3 r))
    eqn:I3.
  { intros _. apply andb_prop in I3. destruct I3 as [P E].
    rewrite (prefix_e "inf" r P eq_refl). cbn [String.length].
    rewrite (at_end_e _ E). lia. }
  destruct (PyStr.starts_with "nan" (PyStr.lower r) && PyFloat.at_end (PyStr.slice_from 3 r))
    eqn:N3.
  { intros _. apply andb_prop in N3. destruct N3 as [P E].
    rewrite (prefix_e "nan" r P eq_refl). cbn [String.length].
    rewrite (at_end_e _ E). lia. }
  destruct (PyFloat.number r) as [[[m k] r1]|] eqn:Nm; [|discriminate].
  apply number_e in Nm.
  destruct (PyFloat.exponent_part r1) as [[e r2]|] eqn:Ex; [|discriminate].
  apply exponent_e in Ex.
  destruct (PyFloat.at_end r2) eqn:E; [|discriminate].
  apply at_end_e in E. intros _. lia.
Qed.

(** X14.  [float] accepts no text that holds a doubled exponent mark, and
    [conv_string] hands [float] the text as it came, the collapsed copy
    being thrown away.  So a token whose text after header stripping holds
    [ee] always decodes to [None] with a warning, also when collapsing the
    mark would leave a number, as for [4.5ee6]. *)
Theorem doubled_exponent_decodes_to_none :
  (forall s f, PyFloat.of_string s = Some f -> contains "ee" s = false)
  /\ (forall token h,
        contains "ee" (payload token) = true ->
        Rigol1054Z.conv_string token h
        = (Ok PyNone, (h ++ [Print "WARNING: Dropped packet!"])%list))
  /\ PyFloat.of_string (PyStr.replace "4.5ee6" "ee" "e") = Some (Fin false 45 5).
Proof.
  assert (A : forall s f, PyFloat.of_string s = Some f -> contains "ee" s = false).
  { intros s f H. apply accepted_has_one_e in H.
    destruct (contains "ee" s) eqn:C; [|reflexivity].
    apply contains_ee in C. lia. }
  split; [exact A|]. split; [|reflexivity].
  intros token h C. rewrite conv_string_run. unfold entry_of.
  rewrite sample_of_payload.
  destruct (PyFloat.of_string (payload token)) as [f|] eqn:F; [|reflexivity].
  rewrite (A _ _ F) in C. discriminate C.
Qed.

(** The theorem on the token [4.5ee6]. *)
Lemma doubled_exponent_decodes_to_none_witness :
  Rigol1054Z.conv_string "4.5ee6" [] = (Ok PyNone, [Print "WARNING: Dropped packet!"]).
Proof.
  apply (proj1 (proj2 doubled_exponent_decodes_to_none) "4.5ee6" []).
  reflexivity.
Defined.

(** ** The plain setters *)

Lemma written_cases (dev : visa_device) (cmd : string) (h : trace) :
  sent (write_events cmd (error_reply dev cmd h)) = [cmd; "SYST:ERR?"]
  /\ (error_reply dev cmd h <> EmptyString ->
      written dev cmd h
      = (Ok PyNone,
         (h ++ [DevWrite cmd; Sleep (1 # 10); DevAsk "SYST:ERR?";
                Print ("`" ++ cmd ++ "` recieved. No error occured")%string])%list))
  /\ (error_reply dev cmd h = EmptyString ->
      written dev cmd h
      = (Raise IndexError, (h ++ [DevWrite cmd; Sleep (1 # 10); DevAsk "SYST:ERR?"])%list)).
Proof.
  split; [apply sent_write_events|]. unfold written, write_events.
  destruct (error_reply dev cmd h); split; intros H;
    try reflexivity; try contradiction; discriminate H.
Qed.

(** X15.  [timescale], [trigger_offset], [capture_start] and
    [capture_stop] each send one checked command and check nothing
    themselves: the value is written into the command as [str] prints it,
    whatever it is.  The call returns [None], after the log line, when the
    error reply is not empty, and raises [IndexError], with no log line,
    when it is. *)
Theorem plain_setters_send_one_checked_command :
  forall dev v h,
    let outcome (cmd : string) (run : result pyval * trace) :=
      (error_reply dev cmd h <> EmptyString ->
       run = (Ok PyNone,
              (h ++ [DevWrite cmd; Sleep (1 # 10); DevAsk "SYST:ERR?";
                     Print ("`" ++ cmd ++ "` recieved. No error occured")%string])%list))
      /\ (error_reply dev cmd h = EmptyString ->
          run = (Raise IndexError,
                 (h ++ [DevWrite cmd; Sleep (1 # 10); DevAsk "SYST:ERR?"])%list)) in
    outcome (":TIM:SCAL " ++ Py.str v) (Rigol1054Z.timescale dev v h)
    /\ outcome (":TIM:OFFS " ++ Py.str v) (Rigol1054Z.trigger_offset dev v h)
    /\ outcome ":START" (Rigol1054Z.capture_start dev h)
    /\ outcome ":STOP" (Rigol1054Z.capture_stop dev h).
Proof.
  intros dev v h outcome. subst outcome. cbv beta.
  rewrite timescale_run, trigger_offset_run.
  unfold Rigol1054Z.capture_start, Rigol1054Z.capture_stop.
  rewrite !write_then_none.
  repeat split; intros H; apply written_cases; exact H.
Qed.

(** The theorem on a time scale given as [None], which is sent as it
    prints. *)
Lemma plain_setters_send_one_checked_command_witness :
  Rigol1054Z.timescale (constant_device no_error_reply []) PyNone []
  = (Ok PyNone,
     [DevWrite ":TIM:SCAL None"; Sleep (1 # 10); DevAsk "SYST:ERR?";
      Print "`:TIM:SCAL None` recieved. No error occured"]).
Proof.
  apply (proj1 (proj1 (plain_setters_send_one_checked_command
                         (constant_device no_error_reply []) PyNone []))).
  discriminate.
Defined.
